(** * Book-tracking: the derivation core of [app.js]

    A shallow embedding of the richest variant of the reading tracker
    (the first [app.js], with categories, covers, activity feed,
    achievements, editing and export/import; the two older variants lack
    parts of it), followed by theorems about its
    progress engine, record store, streak calculator, achievement
    evaluator and snapshot round trip.

    Conventions of the embedding.
    - JavaScript numbers that the program only ever produces through
      [parseInt], sums and differences are integers: [Z].  The division and
      the multiplication of [getProgressPercentage] are those of doubles.
    - A string is the UTF-8 encoding of the text it holds, as the string
      literals of this file are.
    - A calendar date (the [value] of an [<input type="date">], or the
      first ten characters of [toISOString()]) is its day number: [Day].
      Two well-formed date strings are equal exactly when their day numbers
      are, and [new Date(a) - new Date(b)] has the sign of the difference of
      the day numbers.  [new Date(dateString)] is midnight UTC of that day;
      [setHours(0, 0, 0, 0)] cuts it back to a local midnight, which west of
      Greenwich belongs to the day before ([local_day_shift]).  The side of
      Greenwich is taken to be the same on all the dates concerned.
    - The module-level [let] variables of the script form one record,
      [Store]; [localStorage] is the trace of [setItem] calls it received.
    - DOM rendering ([renderBooks], [renderStatistics], ...) reads the
      store and writes none of it, and is left out. *)

From Stdlib Require Import ZArith QArith Qround Qpower Qabs Lqa List String Ascii Bool Lia.
From Stdlib Require Import DecimalString.
From Stdlib Require Import Permutation Sorted.
Import ListNotations.

Local Open Scope string_scope.
Local Open Scope list_scope.
Local Open Scope Z_scope.

(** Source order for a chain of statements: [s |> f |> g] runs [f], then [g]. *)
Notation "s |> f" := (f s) (at level 45, left associativity, only parsing).

(* ================================================================== *)
(** ** Data model *)
(* ================================================================== *)

Definition Day := Z.

(** [book.type]: ['paper'] or ['audio']. *)
Inductive BookType := paper | audio.

(** [book.category]: ['mama'], ['yavor'] or ['choice']. *)
Inductive Category := mama | yavor | choice.

(** [book.status]: ['planned'], ['in-progress'] or ['completed']. *)
Inductive Status := planned | in_progress | completed_status.

(** One element of [book.logs]: [{date, amount}]. *)
Record Log := mkLog { date : Day; amount : Z }.

(** [class Book]. *)
Record Book := mkBook {
  id : string;
  name : string;
  author : string;
  type : BookType;
  total : Z;
  category : Category;
  coverUrl : string;
  logs : list Log;
  status : Status;
  completed : bool
}.

(** [constructor(id, name, author, type, total, category, coverUrl = '')]. *)
Definition newBook (i n a : string) (t : BookType) (tot : Z)
    (c : Category) (cover : string) : Book :=
  mkBook i n a t tot c cover [] planned false.

Definition set_logs (b : Book) (l : list Log) : Book :=
  mkBook (id b) (name b) (author b) (type b) (total b) (category b)
         (coverUrl b) l (status b) (completed b).

Definition set_status (b : Book) (st : Status) : Book :=
  mkBook (id b) (name b) (author b) (type b) (total b) (category b)
         (coverUrl b) (logs b) st (completed b).

Definition set_completed (b : Book) (c : bool) : Book :=
  mkBook (id b) (name b) (author b) (type b) (total b) (category b)
         (coverUrl b) (logs b) (status b) c.

Definition set_category (b : Book) (c : Category) : Book :=
  mkBook (id b) (name b) (author b) (type b) (total b) c
         (coverUrl b) (logs b) (status b) (completed b).

(* ================================================================== *)
(** ** Progress engine: the methods of [Book] *)
(* ================================================================== *)

(** [this.logs.reduce((sum, log) => sum + log.amount, 0)]. *)
Definition getTotalProgress (b : Book) : Z :=
  fold_left (fun sum log => sum + amount log) (logs b) 0.

(** A Number is an IEEE 754 double.  The ones met here are finite and are
    written as the rationals they are; [round_to_double] is the rounding each
    arithmetic operation ends with: to the nearest double, that is to 53
    significant bits, a tie going to the even significand.  The exponent
    range is not represented: integers below 2^53, their quotients and a
    hundred times these stay far inside it. *)

(** The exponent [e] with [2^e <= x < 2^(e+1)], for a positive [x]. *)
Definition floor_log2 (x : Q) : Z :=
  let k := Z.log2 (Qnum x) - Z.log2 (Z.pos (Qden x)) in
  if Qle_bool (2 ^ k)%Q x then k else k - 1.

Definition round_half_even (z : Q) : Z :=
  let f := Qfloor z in
  match (z - inject_Z f ?= 1 # 2)%Q with
  | Lt => f
  | Gt => f + 1
  | Eq => if Z.even f then f else f + 1
  end.

Definition round_to_double (x : Q) : Q :=
  match Qnum x with
  | 0 => 0%Q
  | Z.pos _ =>
      let e := floor_log2 x in
      (inject_Z (round_half_even (x * 2 ^ (52 - e))) * 2 ^ (e - 52))%Q
  | Z.neg _ =>
      let e := floor_log2 (- x)%Q in
      (- (inject_Z (round_half_even (- x * 2 ^ (52 - e))) * 2 ^ (e - 52)))%Q
  end.

(** [x / y] and [x * y] on Numbers. *)
Definition Number_div (x y : Q) : Q := round_to_double (x / y)%Q.
Definition Number_mul (x y : Q) : Q := round_to_double (x * y)%Q.

(** [Math.round]: the integer nearest to the Number, a tie going up. *)
Definition Math_round (x : Q) : Z := Qfloor (x + (1 # 2))%Q.

(** [getProgressPercentage]. *)
Definition getProgressPercentage (b : Book) : Z :=
  if total b =? 0 then 0
  else
    let progress := getTotalProgress b in
    Z.min (Math_round
             (Number_mul (Number_div (inject_Z progress) (inject_Z (total b)))
                         (inject_Z 100)))
          100.

(** [getRemainingAmount]. *)
Definition getRemainingAmount (b : Book) : Z :=
  Z.max (total b - getTotalProgress b) 0.

(** [updateStatus]. *)
Definition updateStatus (b : Book) : Book :=
  let progress := getTotalProgress b in
  if progress =? 0 then set_status b planned
  else if progress >=? total b then
    set_completed (set_status b completed_status) true
  else set_status b in_progress.

(* ================================================================== *)
(** ** Built-ins of the host language *)
(* ================================================================== *)

(** [String.prototype.trim] strips the white space and the line terminators
    of the language from both ends: TAB, LF, VT, FF, CR and SPACE, one byte
    each; U+00A0, two bytes; U+1680, U+2000 to U+200A, U+2028, U+2029,
    U+202F, U+205F, U+3000 and U+FEFF, three bytes each. *)
Definition isWhiteSpace (c : ascii) : bool :=
  let n := nat_of_ascii c in
  (((9 <=? n) && (n <=? 13)) || (n =? 32))%nat.

Definition isWhiteSpace2 (c1 c2 : ascii) : bool :=
  ((nat_of_ascii c1 =? 194) && (nat_of_ascii c2 =? 160))%nat.

Definition isWhiteSpace3 (c1 c2 c3 : ascii) : bool :=
  let n1 := nat_of_ascii c1 in
  let n2 := nat_of_ascii c2 in
  let n3 := nat_of_ascii c3 in
  (((n1 =? 225) && (n2 =? 154) && (n3 =? 128))
   || ((n1 =? 226) && (n2 =? 128)
       && (((128 <=? n3) && (n3 <=? 138))
           || (n3 =? 168) || (n3 =? 169) || (n3 =? 175)))
   || ((n1 =? 226) && (n2 =? 129) && (n3 =? 159))
   || ((n1 =? 227) && (n2 =? 128) && (n3 =? 128))
   || ((n1 =? 239) && (n2 =? 187) && (n3 =? 191)))%nat.

(** The text after one white-space character, when the string starts with
    one. *)
Definition skip_white_space (s : string) : option string :=
  match s with
  | EmptyString => None
  | String c1 r1 =>
      if isWhiteSpace c1 then Some r1 else
      match r1 with
      | EmptyString => None
      | String c2 r2 =>
          if isWhiteSpace2 c1 c2 then Some r2 else
          match r2 with
          | EmptyString => None
          | String c3 r3 => if isWhiteSpace3 c1 c2 c3 then Some r3 else None
          end
      end
  end.

Fixpoint trimStart (s : string) : string :=
  match s with
  | EmptyString => EmptyString
  | String c1 r1 =>
      if isWhiteSpace c1 then trimStart r1 else
      match r1 with
      | EmptyString => s
      | String c2 r2 =>
          if isWhiteSpace2 c1 c2 then trimStart r2 else
          match r2 with
          | EmptyString => s
          | String c3 r3 => if isWhiteSpace3 c1 c2 c3 then trimStart r3 else s
          end
      end
  end.

(** Nothing but white space. *)
Definition is_blank (s : string) : bool :=
  match trimStart s with
  | EmptyString => true
  | String _ _ => false
  end.

(** The longest tail that is nothing but white space goes. *)
Fixpoint trimEnd (s : string) : string :=
  match s with
  | EmptyString => EmptyString
  | String c r => if is_blank s then EmptyString else String c (trimEnd r)
  end.

Definition trim (s : string) : string := trimEnd (trimStart s).

(** The string with the given bytes. *)
Definition utf8 (bytes : list nat) : string :=
  fold_right (fun n s => String (ascii_of_nat n) s) EmptyString bytes.

(** [parseInt(field.value) || 0]: [None] is [NaN]. *)
Definition parseInt_or_0 (v : option Z) : Z :=
  match v with Some n => n | None => 0 end.

(** A number inside a template literal. *)
Definition number_to_string (n : Z) : string :=
  NilZero.string_of_int (Z.to_int n).

Definition dquote : string := String (ascii_of_nat 34) EmptyString.

(** [x || d]: the default replaces a missing or falsy value. *)
Definition or_default {A : Type} (falsy : A -> bool) (x : option A) (d : A) : A :=
  match x with
  | Some v => if falsy v then d else v
  | None => d
  end.

(** What the handlers read from [new Date()] and [Date.now()]. *)
Record Clock := mkClock {
  toISOString : string;   (* new Date().toISOString() *)
  now_ms : string;        (* Date.now().toString() *)
  utcDay : Day;           (* new Date().toISOString().split('T')[0] *)
  localDay : Day;         (* new Date() after setHours(0, 0, 0, 0) *)
  timezoneOffset : Z      (* minutes from local time to UTC, as
                             getTimezoneOffset() gives them: positive west
                             of Greenwich, -120 in Sofia *)
}.

(** [d = new Date(dateString); d.setHours(0, 0, 0, 0)]: the string is parsed
    as midnight UTC of its day and then cut back to the local midnight before
    it, so west of Greenwich the result is the local day before the date and
    elsewhere the day of the date.  The number of days lost: *)
Definition local_day_shift (now : Clock) : Z :=
  if 0 <? timezoneOffset now then 1 else 0.

(** [Array.prototype.sort(compareFn)], a stable sort: [x] moves behind [y]
    only when [compareFn x y > 0]. *)
Section ArraySort.
Context {A : Type} (compareFn : A -> A -> Z).

Fixpoint sort_insert (x : A) (l : list A) : list A :=
  match l with
  | [] => [x]
  | y :: r => if compareFn x y >? 0 then y :: sort_insert x r else x :: y :: r
  end.

Definition array_sort (l : list A) : list A := fold_right sort_insert [] l.

(** The order that the sort establishes: nothing stands before an element
    it would have to follow. *)
Definition in_order (x y : A) : Prop := compareFn x y <= 0.
End ArraySort.

(** [Set.prototype.add] on the insertion-ordered elements of a [Set]. *)
Definition set_add (d : Day) (elems : list Day) : list Day :=
  if existsb (Z.eqb d) elems then elems else elems ++ [d].

(* ================================================================== *)
(** ** Application state *)
(* ================================================================== *)

(** One element of [activityFeed]: [{type, message, bookName, date}]. *)
Record Activity := mkActivity {
  act_type : string;
  act_message : string;
  act_bookName : string;
  act_date : string
}.

(** One element of [achievements]: [{id, unlocked}]. *)
Record UserAchievement := mkUserAchievement {
  ach_id : string;
  unlocked : bool
}.

(** A call [localStorage.setItem(key, JSON.stringify(value))]. *)
Inductive SetItem :=
| setItem_books (value : list Book)
| setItem_streaks (current longest : Z)
| setItem_activityFeed (value : list Activity)
| setItem_achievements (value : list UserAchievement).

(** The [let] variables of the script; [theme], [currentCategoryFilter] and
    [hiddenSuggestions] belong to the display only.  [localStorage] lists the
    writes, the latest first. *)
Record Store := mkStore {
  books : list Book;
  currentStreak : Z;
  longestStreak : Z;
  activityFeed : list Activity;
  achievements : list UserAchievement;
  dailyGoal : Z;
  localStorage : list SetItem
}.

(** The state of a freshly loaded script. *)
Definition initial_store : Store := mkStore [] 0 0 [] [] 50 [].

Definition set_books (v : list Book) (s : Store) : Store :=
  mkStore v (currentStreak s) (longestStreak s) (activityFeed s)
          (achievements s) (dailyGoal s) (localStorage s).

Definition set_streaks (c l : Z) (s : Store) : Store :=
  mkStore (books s) c l (activityFeed s) (achievements s) (dailyGoal s)
          (localStorage s).

Definition set_activityFeed (v : list Activity) (s : Store) : Store :=
  mkStore (books s) (currentStreak s) (longestStreak s) v (achievements s)
          (dailyGoal s) (localStorage s).

Definition set_achievements (v : list UserAchievement) (s : Store) : Store :=
  mkStore (books s) (currentStreak s) (longestStreak s) (activityFeed s) v
          (dailyGoal s) (localStorage s).

Definition set_dailyGoal (v : Z) (s : Store) : Store :=
  mkStore (books s) (currentStreak s) (longestStreak s) (activityFeed s)
          (achievements s) v (localStorage s).

Definition setItem (w : SetItem) (s : Store) : Store :=
  mkStore (books s) (currentStreak s) (longestStreak s) (activityFeed s)
          (achievements s) (dailyGoal s) (w :: localStorage s).

(** [books.find(b => b.id === bookId)]. *)
Definition find_book (bookId : string) (l : list Book) : option Book :=
  find (fun b => (id b =? bookId)%string) l.

(** An assignment to a field of the object that [find_book] returned: the
    first book with that id changes in place. *)
Fixpoint mutate_book (bookId : string) (f : Book -> Book) (l : list Book)
    : list Book :=
  match l with
  | [] => []
  | b :: r =>
      if (id b =? bookId)%string then f b :: r
      else b :: mutate_book bookId f r
  end.

Definition with_book (bookId : string) (f : Book -> Book) (s : Store) : Store :=
  set_books (mutate_book bookId f (books s)) s.

(** [book.logs.push(entry); book.logs.sort((a, b) => new Date(b.date) - new Date(a.date))]. *)
Definition push_log (entry : Log) (b : Book) : Book :=
  set_logs b (array_sort (fun x y => date y - date x) (logs b ++ [entry])).

(* ------------------------------------------------------------------ *)
(** *** Persistence *)

Definition saveBooks (s : Store) : Store :=
  setItem (setItem_books (books s)) s.

Definition saveStreaks (s : Store) : Store :=
  setItem (setItem_streaks (currentStreak s) (longestStreak s)) s.

Definition saveActivityFeed (s : Store) : Store :=
  setItem (setItem_activityFeed (activityFeed s)) s.

Definition saveAchievements (s : Store) : Store :=
  setItem (setItem_achievements (achievements s)) s.

(* ------------------------------------------------------------------ *)
(** *** Activity feed *)

(** [addActivity(type, message, bookName)]: newest first, and one entry
    dropped from the end once there are more than 50. *)
Definition addActivity (now : Clock) (ty message bookName : string)
    (s : Store) : Store :=
  let activity := mkActivity ty message bookName (toISOString now) in
  let feed := activity :: activityFeed s in
  let feed := if (50 <? List.length feed)%nat then removelast feed else feed in
  s |> set_activityFeed feed |> saveActivityFeed.

(* ================================================================== *)
(** ** Streak calculator *)
(* ================================================================== *)

(** The [Set] that the two nested [forEach] loops fill. *)
Definition allDates (l : list Book) : list Day :=
  fold_left
    (fun acc book => fold_left (fun acc log => set_add (date log) acc) (logs book) acc)
    l [].

(** The first [for] loop: the local midnight of the [i]-th date has to be
    today's local midnight minus [i] days; [shift] is [local_day_shift]. *)
Fixpoint current_loop (shift : Z) (today : Day) (i : Z) (sortedDates : list Day)
    (streak : Z) : Z :=
  match sortedDates with
  | [] => streak
  | d :: rest =>
      let logDate := d - shift in
      let expectedDate := today - i in
      if logDate =? expectedDate
      then current_loop shift today (i + 1) rest (streak + 1)
      else streak
  end.

(** The second [for] loop, over the adjacent pairs; it returns [maxStreak]. *)
Fixpoint longest_loop (sortedDates : list Day) (tempStreak maxStreak : Z) : Z :=
  match sortedDates with
  | currentDate :: ((nextDate :: _) as rest) =>
      let diffDays := currentDate - nextDate in
      if diffDays =? 1 then
        let tempStreak := tempStreak + 1 in
        longest_loop rest tempStreak
          (if tempStreak >? maxStreak then tempStreak else maxStreak)
      else longest_loop rest 1 maxStreak
  | _ => maxStreak
  end.

(** [updateStreaks]. *)
Definition updateStreaks (now : Clock) (s : Store) : Store :=
  let dates := allDates (books s) in
  if (List.length dates =? 0)%nat then set_streaks 0 0 s
  else
    let sortedDates := array_sort (fun a b => b - a) dates in
    let current :=
      current_loop (local_day_shift now) (localDay now) 0 sortedDates 0 in
    let maxStreak := longest_loop sortedDates 1 1 in
    set_streaks current (Z.max (Z.max (longestStreak s) maxStreak) current) s.

(* ================================================================== *)
(** ** Achievement evaluator *)
(* ================================================================== *)

(** An entry of [achievementsList]; [icon] and [desc] are display text. *)
Record AchievementDef := mkAchievementDef {
  def_id : string;
  def_name : string;
  check : Store -> bool
}.

Definition achievementsList : list AchievementDef :=
  [ mkAchievementDef "first-book" "Първа книга"
      (fun s => (1 <=? List.length (books s))%nat);
    mkAchievementDef "five-books" "5 книги"
      (fun s => (5 <=? List.length (books s))%nat);
    mkAchievementDef "first-complete" "Първо завършване"
      (fun s => existsb completed (books s));
    mkAchievementDef "five-complete" "5 завършени"
      (fun s => (5 <=? List.length (filter completed (books s)))%nat);
    mkAchievementDef "streak-7" "7 дни серия"
      (fun s => currentStreak s >=? 7);
    mkAchievementDef "streak-30" "30 дни серия"
      (fun s => currentStreak s >=? 30) ].

(** [achievements.find(a => a.id === id)]. *)
Definition find_achievement (i : string) (l : list UserAchievement)
    : option UserAchievement :=
  find (fun a => (ach_id a =? i)%string) l.

(** [userAch.unlocked = true] on the object that [find_achievement] returned. *)
Fixpoint unlock (i : string) (l : list UserAchievement) : list UserAchievement :=
  match l with
  | [] => []
  | a :: r =>
      if (ach_id a =? i)%string then mkUserAchievement (ach_id a) true :: r
      else a :: unlock i r
  end.

(** The body of the [forEach] in [checkAchievements]; the flag is [updated]. *)
Definition check_one (now : Clock) (acc : Store * bool)
    (achievement : AchievementDef) : Store * bool :=
  let (s, updated) := acc in
  match find_achievement (def_id achievement) (achievements s) with
  | Some userAch =>
      if negb (unlocked userAch) && check achievement s then
        (s |> set_achievements (unlock (def_id achievement) (achievements s))
           |> addActivity now "Постижение"
                ("Отключено: " ++ def_name achievement)%string "",
         true)
      else (s, updated)
  | None => (s, updated)
  end.

(** [checkAchievements]. *)
Definition checkAchievements (now : Clock) (s : Store) : Store :=
  let (s', updated) := fold_left (check_one now) achievementsList (s, false) in
  if updated then saveAchievements s' else s'.

(** [localStorage.getItem('achievements')], parsed: the latest value written. *)
Fixpoint getItem_achievements (trace : list SetItem)
    : option (list UserAchievement) :=
  match trace with
  | [] => None
  | setItem_achievements v :: _ => Some v
  | _ :: r => getItem_achievements r
  end.

(** [initializeAchievements], the last step of start-up. *)
Definition initializeAchievements (now : Clock) (s : Store) : Store :=
  let table :=
    match getItem_achievements (localStorage s) with
    | Some saved => saved
    | None => map (fun a => mkUserAchievement (def_id a) false) achievementsList
    end in
  s |> set_achievements table |> checkAchievements now.

(** What [renderAchievements] shows for an id:
    [userAch ? userAch.unlocked : false]. *)
Definition is_unlocked (i : string) (s : Store) : bool :=
  match find_achievement i (achievements s) with
  | Some userAch => unlocked userAch
  | None => false
  end.

(* ================================================================== *)
(** ** Record store: the handlers *)
(* ================================================================== *)

(** The fields of the add-book form. *)
Record BookForm := mkBookForm {
  book_name : string;
  book_author : string;
  book_type : BookType;
  book_category : Category;
  book_cover : string;
  total_pages : option Z;
  total_hours : option Z;
  total_minutes : option Z
}.

(** [total] as [handleAddBook] and [handleEditBook] compute it. *)
Definition form_total (t : BookType) (pages hours minutes : option Z) : Z :=
  match t with
  | paper => parseInt_or_0 pages
  | audio => parseInt_or_0 hours * 60 + parseInt_or_0 minutes
  end.

(** [handleAddBook]. *)
Definition handleAddBook (now : Clock) (e : BookForm) (s : Store) : Store :=
  let name := trim (book_name e) in
  let author := trim (book_author e) in
  let type := book_type e in
  let category := book_category e in
  let coverUrl := trim (book_cover e) in
  let total := form_total type (total_pages e) (total_hours e) (total_minutes e) in
  if (name =? "")%string || (author =? "")%string || (total <=? 0) then s
  else
    let id := now_ms now in
    let book := newBook id name author type total category coverUrl in
    s |> set_books (books s ++ [book])
      |> saveBooks
      |> addActivity now "Добавяне"
           ("Добавена книга " ++ dquote ++ name ++ dquote)%string name
      |> checkAchievements now.

(** The fields of the log form. *)
Record LogForm := mkLogForm {
  log_book_id : string;
  log_date : Day;
  log_pages : option Z;
  log_hours : option Z;
  log_minutes : option Z
}.

(** [amount] as [handleAddLog] computes it for the book it found. *)
Definition log_amount (book : Book) (e : LogForm) : Z :=
  match type book with
  | paper => parseInt_or_0 (log_pages e)
  | audio => parseInt_or_0 (log_hours e) * 60 + parseInt_or_0 (log_minutes e)
  end.

(** [handleAddLog]. *)
Definition handleAddLog (now : Clock) (e : LogForm) (s : Store) : Store :=
  let bookId := log_book_id e in
  match find_book bookId (books s) with
  | None => s
  | Some book =>
      let amount := log_amount book e in
      if amount <=? 0 then s
      else
        let unit := match type book with
                    | paper => "страници"
                    | audio => "минути"
                    end in
        s |> with_book bookId
               (fun b => updateStatus (push_log (mkLog (log_date e) amount) b))
          |> saveBooks
          |> updateStreaks now
          |> saveStreaks
          |> addActivity now "Прогрес"
               (number_to_string amount ++ " " ++ unit ++ " за " ++ dquote
                  ++ name book ++ dquote)%string
               (name book)
          |> checkAchievements now
  end.

(** [changeBookCategory]. *)
Definition changeBookCategory (bookId : string) (newCategory : Category)
    (s : Store) : Store :=
  match find_book bookId (books s) with
  | None => s
  | Some _ =>
      s |> with_book bookId (fun b => set_category b newCategory) |> saveBooks
  end.

(** [toggleBookCompletion]. *)
Definition toggleBookCompletion (now : Clock) (bookId : string) (s : Store)
    : Store :=
  match find_book bookId (books s) with
  | None => s
  | Some book =>
      let s1 :=
        if negb (completed book) then
          let remaining := getRemainingAmount book in
          let s0 :=
            if remaining >? 0
            then s |> with_book bookId (push_log (mkLog (utcDay now) remaining))
            else s in
          s0 |> addActivity now "Завършване"
                  ("Завършена книга " ++ dquote ++ name book ++ dquote)%string
                  (name book)
        else s in
      s1 |> with_book bookId
              (fun b => updateStatus (set_completed b (negb (completed b))))
         |> saveBooks
         |> updateStreaks now
         |> saveStreaks
         |> checkAchievements now
  end.

(** How a handler ends: normally, or with an uncaught exception. *)
Inductive Completion := Normal | Throw (error : string).

(** [deleteBook]; [confirmed] is the answer to the [confirm] dialog.  With no
    book found, evaluating [book.name] for the first argument of
    [addActivity] throws before anything is called. *)
Definition deleteBook (now : Clock) (confirmed : bool) (bookId : string)
    (s : Store) : Completion * Store :=
  let book := find_book bookId (books s) in
  if confirmed then
    match book with
    | None => (Throw "TypeError", s)
    | Some book =>
        (Normal,
         s |> addActivity now "Изтриване"
                ("Изтрита книга " ++ dquote ++ name book ++ dquote)%string
                (name book)
           |> (fun s => set_books
                 (filter (fun b => negb (id b =? bookId)%string) (books s)) s)
           |> saveBooks)
    end
  else (Normal, s).

(** The fields of the edit form. *)
Record EditForm := mkEditForm {
  edit_book_id : string;
  edit_book_name : string;
  edit_book_author : string;
  edit_book_category : Category;
  edit_book_type : BookType;
  edit_book_cover : string;
  edit_total_pages : option Z;
  edit_total_hours : option Z;
  edit_total_minutes : option Z
}.

(** [handleEditBook]. *)
Definition handleEditBook (now : Clock) (e : EditForm) (s : Store) : Store :=
  let bookId := edit_book_id e in
  match find_book bookId (books s) with
  | None => s
  | Some _ =>
      let name := trim (edit_book_name e) in
      s |> with_book bookId
             (fun b =>
                updateStatus
                  (mkBook (id b) name (trim (edit_book_author e))
                     (edit_book_type e)
                     (form_total (edit_book_type e) (edit_total_pages e)
                        (edit_total_hours e) (edit_total_minutes e))
                     (edit_book_category e) (trim (edit_book_cover e))
                     (logs b) (status b) (completed b)))
        |> saveBooks
        |> addActivity now "Редактиране"
             ("Редактирана книга " ++ dquote ++ name ++ dquote)%string name
  end.

(* ================================================================== *)
(** ** Snapshot export and import *)
(* ================================================================== *)

(** The parsed backup document.  A key that may be absent is an [option];
    [JSON.stringify] followed by [JSON.parse] returns the value it was given,
    so the text in between is not represented. *)
Record BookData := mkBookData {
  bd_id : string;
  bd_name : string;
  bd_author : string;
  bd_type : BookType;
  bd_total : Z;
  bd_category : option Category;
  bd_coverUrl : option string;
  bd_logs : option (list Log);
  bd_status : option Status;
  bd_completed : option bool
}.

Record StreakData := mkStreakData {
  sd_currentStreak : option Z;
  sd_longestStreak : option Z
}.

Record Document := mkDocument {
  doc_books : option (list BookData);
  doc_streaks : option StreakData;
  doc_activityFeed : option (list Activity);
  doc_achievements : option (list UserAchievement);
  doc_dailyGoal : option Z;
  doc_exportDate : option string
}.

(** The own properties of a [Book] as [JSON.stringify] writes them. *)
Definition book_to_json (b : Book) : BookData :=
  mkBookData (id b) (name b) (author b) (type b) (total b)
    (Some (category b)) (Some (coverUrl b)) (Some (logs b))
    (Some (status b)) (Some (completed b)).

(** The callback of [data.books.map] in [importData]. *)
Definition book_of_json (bookData : BookData) : Book :=
  let book :=
    newBook (bd_id bookData) (bd_name bookData) (bd_author bookData)
      (bd_type bookData) (bd_total bookData)
      (or_default (fun _ => false) (bd_category bookData) mama)
      (or_default (fun v => (v =? "")%string) (bd_coverUrl bookData) "") in
  let book := set_logs book (or_default (fun _ => false) (bd_logs bookData) []) in
  let book := set_completed book (or_default negb (bd_completed bookData) false) in
  set_status book (or_default (fun _ => false) (bd_status bookData) planned).

(** [exportData]: the document handed to the browser for download, and the
    store with the export event recorded after the document was written. *)
Definition exportData (now : Clock) (s : Store) : Document * Store :=
  let data :=
    mkDocument (Some (map book_to_json (books s)))
      (Some (mkStreakData (Some (currentStreak s)) (Some (longestStreak s))))
      (Some (activityFeed s)) (Some (achievements s)) (Some (dailyGoal s))
      (Some (toISOString now)) in
  (data, addActivity now "Експорт" "Данните са експортирани" "" s).

(** [importData], from the [onload] callback on.  [parsed] is [None] when no
    file was chosen or [JSON.parse] threw; [confirmed] is the answer to the
    [confirm] dialog. *)
Definition importData (now : Clock) (parsed : option Document)
    (confirmed : bool) (s : Store) : Store :=
  match parsed with
  | None => s
  | Some data =>
      if confirmed then
        let s := match doc_books data with
                 | Some l => s |> set_books (map book_of_json l) |> saveBooks
                 | None => s
                 end in
        let s := match doc_streaks data with
                 | Some st =>
                     s |> set_streaks
                            (or_default (Z.eqb 0) (sd_currentStreak st) 0)
                            (or_default (Z.eqb 0) (sd_longestStreak st) 0)
                       |> saveStreaks
                 | None => s
                 end in
        let s := match doc_activityFeed data with
                 | Some l => s |> set_activityFeed l |> saveActivityFeed
                 | None => s
                 end in
        let s := match doc_achievements data with
                 | Some l => s |> set_achievements l |> saveAchievements
                 | None => s
                 end in
        let s := match doc_dailyGoal data with
                 | Some g => if g =? 0 then s else set_dailyGoal g s
                 | None => s
                 end in
        addActivity now "Импорт" "Данните са импортирани успешно" "" s
      else s
  end.

(* ================================================================== *)
(** ** Operations on the store *)
(* ================================================================== *)

(** One user action or recomputation, with the inputs it reads. *)
Inductive Op :=
| AddBook (now : Clock) (e : BookForm)
| AddLog (now : Clock) (e : LogForm)
| ChangeCategory (bookId : string) (newCategory : Category)
| ToggleCompletion (now : Clock) (bookId : string)
| DeleteBook (now : Clock) (confirmed : bool) (bookId : string)
| EditBook (now : Clock) (e : EditForm)
| UpdateStreaks (now : Clock)
| CheckAchievements (now : Clock)
| ExportData (now : Clock)
| ImportData (now : Clock) (parsed : option Document) (confirmed : bool).

Definition step (op : Op) (s : Store) : Store :=
  match op with
  | AddBook now e => handleAddBook now e s
  | AddLog now e => handleAddLog now e s
  | ChangeCategory bookId c => changeBookCategory bookId c s
  | ToggleCompletion now bookId => toggleBookCompletion now bookId s
  | DeleteBook now confirmed bookId => snd (deleteBook now confirmed bookId s)
  | EditBook now e => handleEditBook now e s
  | UpdateStreaks now => updateStreaks now s
  | CheckAchievements now => checkAchievements now s
  | ExportData now => snd (exportData now s)
  | ImportData now parsed confirmed => importData now parsed confirmed s
  end.

(** The operations run from left to right. *)
Definition run (ops : list Op) (s : Store) : Store :=
  fold_left (fun s op => step op s) ops s.

Definition is_import (op : Op) : bool :=
  match op with ImportData _ _ _ => true | _ => false end.

(** Whether the operation, run on the store, gets as far as its call of
    [updateStreaks]: [handleAddLog] returns before it for an unknown id or an
    amount that is not positive, [toggleBookCompletion] for an unknown id. *)
Definition recomputes_streaks (op : Op) (s : Store) : bool :=
  match op with
  | AddLog _ e =>
      match find_book (log_book_id e) (books s) with
      | Some book => negb (log_amount book e <=? 0)
      | None => false
      end
  | ToggleCompletion _ bookId =>
      match find_book bookId (books s) with
      | Some _ => true
      | None => false
      end
  | UpdateStreaks _ => true
  | _ => false
  end.

(* ================================================================== *)
(** ** The scenarios of the specification, evaluated *)
(* ================================================================== *)

Module Scenario.

Definition jan (d : Z) : Day := 19722 + d.   (* 2024-01-01 is day 19723 *)

Definition at_day (d : Z) : Clock :=
  mkClock "2024-01-03T10:00:00.000Z" "1704276000000" d d (-120).

Definition dune_form : BookForm :=
  mkBookForm "Dune" " Herbert " paper mama "" (Some 400) None None.

Definition dune_id : string := "1704276000000".

Definition log_on (d amount : Z) : Op :=
  AddLog (at_day (jan 3)) (mkLogForm dune_id (jan d) (Some amount) None None).

(** The book of the scenario after its first log. *)
Definition dune : Book :=
  mkBook dune_id "Dune" "Herbert" paper 400 mama "" [mkLog (jan 1) 100]
         in_progress false.

Definition s0 : Store := initializeAchievements (at_day (jan 3)) initial_store.

Definition s1 : Store :=
  run [AddBook (at_day (jan 3)) dune_form; log_on 1 100] s0.

Definition s2 : Store := step (ToggleCompletion (at_day (jan 3)) dune_id) s1.

Definition s3 : Store :=
  run [AddBook (at_day (jan 3)) dune_form; log_on 1 10; log_on 3 10; log_on 2 10]
      s0.

Definition s4 : Store := step (DeleteBook (at_day (jan 3)) true dune_id) s3.

(** A completed book whose total was raised afterwards, alone in a store. *)
Definition longer_edition : Book :=
  mkBook "9" "Solaris" "Lem" paper 250 yavor "" [mkLog (jan 2) 200]
         in_progress true.

Definition reopened : Store := set_books [longer_edition] s0.

(** The book of the scenario with its three daily logs. *)
Definition dune_logged : Book :=
  mkBook dune_id "Dune" "Herbert" paper 400 mama ""
         [mkLog (jan 3) 10; mkLog (jan 2) 10; mkLog (jan 1) 10]
         in_progress false.

(** The book of the scenario after the completion toggle. *)
Definition dune_done : Book :=
  mkBook dune_id "Dune" "Herbert" paper 400 mama ""
         [mkLog (jan 3) 300; mkLog (jan 1) 100] completed_status true.

(** SPACE, U+00A0, U+3000, U+FEFF, U+2028 and TAB. *)
Definition wide_blank : string :=
  utf8 [32; 194; 160; 227; 128; 128; 239; 187; 191; 226; 128; 168; 9]%nat.

(** U+200B, the zero-width space, which is no white space to [trim]. *)
Definition zero_width_space : string := utf8 [226; 128; 139]%nat.

(** An edit that blanks the name and sets the total to 0. *)
Definition blank_edit : EditForm :=
  mkEditForm dune_id "   " "Herbert" mama paper "" (Some 0) None None.


Definition second_form : BookForm :=
  mkBookForm "Solaris" "Lem" paper yavor "" (Some 200) None None.

(** A backup taken before the first book was added. *)
Definition old_backup : Document :=
  mkDocument (Some [])
    (Some (mkStreakData (Some 0) (Some 0)))
    (Some [])
    (Some (map (fun a => mkUserAchievement (def_id a) false) achievementsList))
    (Some 50) (Some "2024-01-02T08:00:00.000Z").

Definition later : Clock :=
  mkClock "2024-01-06T10:00:00.000Z" "1704535200000" (jan 6) (jan 6) (-120).

(** The afternoon of 2 January in New York, five hours behind UTC. *)
Definition new_york : Clock :=
  mkClock "2024-01-02T20:00:00.000Z" "1704225600000" (jan 2) (jan 2) 300.

(** A second book is added and logged, then the first one is deleted and
    the streaks are recomputed the next day. *)
Definition second_book_then_delete : list Op :=
  [ AddBook later second_form;
    AddLog later (mkLogForm "1704535200000" (jan 6) (Some 5) None None);
    DeleteBook later true dune_id;
    UpdateStreaks (at_day (jan 7)) ].

(** The scenario book after its total was edited down to 30 pages: the
    edit marks it completed and runs no achievement check. *)
Definition shortened : Store :=
  handleEditBook later
    (mkEditForm dune_id "Dune" "Herbert" mama paper "" (Some 30) None None) s3.

End Scenario.


(** No call of [updateStreaks] in the run finds the set of log dates empty;
    an operation that returns before its call is not asked anything.  The
    handlers change no book after their call of [updateStreaks], so the set a
    recomputation sees is the one of the store the operation leaves. *)
Fixpoint dates_remain (ops : list Op) (s : Store) : bool :=
  match ops with
  | [] => true
  | op :: rest =>
      (negb (recomputes_streaks op s)
       || negb (List.length (allDates (books (step op s))) =? 0)%nat)
      && dates_remain rest (step op s)
  end.

(** An import that assigns [achievements]: confirmed, and of a document with
    that key. *)
Definition replaces_achievements (op : Op) : bool :=
  match op with
  | ImportData _ (Some data) true =>
      match doc_achievements data with Some _ => true | None => false end
  | _ => false
  end.

(** Entry by entry, the same ids and nothing unlocked lost. *)
Definition keeps_unlocked (a a' : UserAchievement) : Prop :=
  ach_id a' = ach_id a /\ (unlocked a = true -> unlocked a' = true).

Definition table_le : list UserAchievement -> list UserAchievement -> Prop :=
  Forall2 keeps_unlocked.

(** [exportData], then [importData] of the document it produced. *)
Definition export_then_import (now1 now2 : Clock) (s : Store) : Store :=
  let (data, s') := exportData now1 s in
  importData now2 (Some data) true s'.

(** The sum that [getTotalProgress] computes, by structural recursion. *)
Definition sum_amounts (l : list Log) : Z :=
  fold_right (fun log acc => amount log + acc) 0 l.

(** A book one page short of a thousand. *)
Definition almost_read : Book :=
  mkBook "7" "Under the Yoke" "Vazov" paper 1000 choice ""
         [mkLog 19724 499; mkLog 19723 500] in_progress false.

(** A book 23 pages into 40. *)
Definition tie_book : Book :=
  mkBook "8" "Bay Ganyo" "Konstantinov" paper 40 choice ""
         [mkLog 19724 23] in_progress false.

(* ================================================================== *)
(** ** Start-up: reading the persisted state back *)
(* ================================================================== *)

(** [JSON.parse(localStorage.getItem('books'))]: the array written last, as
    plain objects. *)
Fixpoint getItem_books (trace : list SetItem) : option (list BookData) :=
  match trace with
  | [] => None
  | setItem_books v :: _ => Some (map book_to_json v)
  | _ :: r => getItem_books r
  end.

(** [JSON.parse(localStorage.getItem('streaks'))]. *)
Fixpoint getItem_streaks (trace : list SetItem) : option StreakData :=
  match trace with
  | [] => None
  | setItem_streaks c l :: _ => Some (mkStreakData (Some c) (Some l))
  | _ :: r => getItem_streaks r
  end.

(** [JSON.parse(localStorage.getItem('activityFeed'))]. *)
Fixpoint getItem_activityFeed (trace : list SetItem) : option (list Activity) :=
  match trace with
  | [] => None
  | setItem_activityFeed v :: _ => Some v
  | _ :: r => getItem_activityFeed r
  end.

(** The callback of [parsed.map] in [loadBooks]. *)
Definition book_of_storage (data : BookData) : Book :=
  let book :=
    newBook (bd_id data) (bd_name data) (bd_author data) (bd_type data)
      (bd_total data)
      (or_default (fun _ => false) (bd_category data) mama)
      (or_default (fun v => (v =? "")%string) (bd_coverUrl data) "") in
  let book := set_logs book (or_default (fun _ => false) (bd_logs data) []) in
  let book := set_completed book (or_default negb (bd_completed data) false) in
  let book :=
    set_status book
      (or_default (fun _ => false) (bd_status data)
         (if completed book then completed_status else planned)) in
  updateStatus book.

(** [loadBooks]. *)
Definition loadBooks (s : Store) : Store :=
  match getItem_books (localStorage s) with
  | Some parsed => set_books (map book_of_storage parsed) s
  | None => s
  end.

(** [loadStreaks]. *)
Definition loadStreaks (s : Store) : Store :=
  match getItem_streaks (localStorage s) with
  | Some streaks =>
      set_streaks (or_default (Z.eqb 0) (sd_currentStreak streaks) 0)
                  (or_default (Z.eqb 0) (sd_longestStreak streaks) 0) s
  | None => s
  end.

(** [loadActivityFeed]. *)
Definition loadActivityFeed (s : Store) : Store :=
  match getItem_activityFeed (localStorage s) with
  | Some saved => set_activityFeed saved s
  | None => s
  end.

(** [loadAchievements]. *)
Definition loadAchievements (s : Store) : Store :=
  match getItem_achievements (localStorage s) with
  | Some saved => set_achievements saved s
  | None => s
  end.

(** The [DOMContentLoaded] listener of a freshly loaded script whose
    [localStorage] already received [trace]; its rendering calls and the
    loading of the theme and of the hidden suggestions are left out. *)
Definition startup (now : Clock) (trace : list SetItem) : Store :=
  mkStore [] 0 0 [] [] 50 trace
    |> loadBooks
    |> loadStreaks
    |> loadActivityFeed
    |> loadAchievements
    |> updateStreaks now
    |> initializeAchievements now.

(** The books in storage are the books in memory; before the first write
    there are none. *)
Definition books_in_sync (s : Store) : Prop :=
  match getItem_books (localStorage s) with
  | Some parsed => parsed = map book_to_json (books s)
  | None => books s = []
  end.

(** The feed in storage is the feed in memory; before the first write it is
    empty. *)
Definition feed_in_sync (s : Store) : Prop :=
  match getItem_activityFeed (localStorage s) with
  | Some saved => saved = activityFeed s
  | None => activityFeed s = []
  end.

(** The stored status and flag of a book are the ones [updateStatus] gives. *)
Definition status_current (b : Book) : Prop := updateStatus b = b.

(** Logs newest first. *)
Definition newest_first (l : list Log) : Prop :=
  Sorted (fun x y => date y <= date x) l.

(* ================================================================== *)
(** ** Statistics *)
(* ================================================================== *)










(* ================================================================== *)
(** ** Autocomplete suggestions *)
(* ================================================================== *)

(** [hiddenSuggestions]: [{names, authors}]. *)
Record HiddenSuggestions := mkHiddenSuggestions {
  names : list string;
  authors : list string
}.

(** [array.includes(value)] and [set.has(value)] on strings. *)
Definition includes (l : list string) (value : string) : bool :=
  existsb (fun x => (x =? value)%string) l.

(** [hideSuggestion(type, value)]; the record returned is also the one
    written under the key ['hiddenSuggestions']. *)
Definition hideSuggestion (kind value : string) (h : HiddenSuggestions)
    : HiddenSuggestions :=
  if (kind =? "name")%string && negb (includes (names h) value)
  then mkHiddenSuggestions (names h ++ [value]) (authors h)
  else if (kind =? "author")%string && negb (includes (authors h) value)
  then mkHiddenSuggestions (names h) (authors h ++ [value])
  else h.

(** [showSuggestion(type, value)]. *)
Definition showSuggestion (kind value : string) (h : HiddenSuggestions)
    : HiddenSuggestions :=
  if (kind =? "name")%string
  then mkHiddenSuggestions
         (filter (fun n => negb (n =? value)%string) (names h)) (authors h)
  else if (kind =? "author")%string
  then mkHiddenSuggestions
         (names h) (filter (fun a => negb (a =? value)%string) (authors h))
  else h.

(** The four accumulators of [updateAutocomplete]. *)
Record Suggestions := mkSuggestions {
  bookNames : list string;
  authorNames : list string;
  seenNames : list string;
  seenAuthors : list string
}.

Section Autocomplete.
(** The number that [b.id - a.id] makes of an id; [None] is [NaN]. *)
Variable ToNumber : string -> option Z.

(** [(a, b) => b.id - a.id]; a [NaN] result counts as 0 in a sort. *)
Definition compare_recent (a b : Book) : Z :=
  match ToNumber (id b), ToNumber (id a) with
  | Some nb, Some na => nb - na
  | _, _ => 0
  end.

(** The body of [sortedBooks.forEach]. *)
Definition suggest_book (h : HiddenSuggestions) (acc : Suggestions)
    (book : Book) : Suggestions :=
  let acc :=
    if negb (includes (seenNames acc) (name book))
       && negb (includes (names h) (name book))
    then mkSuggestions (bookNames acc ++ [name book]) (authorNames acc)
           (seenNames acc ++ [name book]) (seenAuthors acc)
    else acc in
  if negb (includes (seenAuthors acc) (author book))
     && negb (includes (authors h) (author book))
  then mkSuggestions (bookNames acc) (authorNames acc ++ [author book])
         (seenNames acc) (seenAuthors acc ++ [author book])
  else acc.

(** [updateAutocomplete]: the options of the two datalists. *)
Definition updateAutocomplete (h : HiddenSuggestions) (l : list Book)
    : list string * list string :=
  let sortedBooks := array_sort compare_recent l in
  let acc := fold_left (suggest_book h) sortedBooks (mkSuggestions [] [] [] []) in
  (bookNames acc, authorNames acc).
End Autocomplete.

(** One list of [updateAutocomplete] taken alone: a key is appended unless
    it was suggested already or is hidden. *)
Definition suggest_key (hidden : list string) (out : list string)
    (key : string) : list string :=
  if negb (includes out key) && negb (includes hidden key)
  then out ++ [key] else out.


(* ================================================================== *)
(** ** The edit form as [openEditModal] fills it *)
(* ================================================================== *)


(* ================================================================== *)
(** ** Progress engine: proofs *)
(* ================================================================== *)

Lemma reduce_from (l : list Log) (a : Z) :
  fold_left (fun sum log => sum + amount log) l a = a + sum_amounts l.
Proof.
  revert a; induction l as [|x l IH]; intros a; simpl.
  - lia.
  - rewrite IH. lia.
Qed.

Lemma getTotalProgress_sum (b : Book) :
  getTotalProgress b = sum_amounts (logs b).
Proof. unfold getTotalProgress. rewrite reduce_from. lia. Qed.

Lemma sum_amounts_app (l1 l2 : list Log) :
  sum_amounts (l1 ++ l2) = sum_amounts l1 + sum_amounts l2.
Proof. induction l1 as [|x l1 IH]; simpl; lia. Qed.


Lemma sum_amounts_nonneg (l : list Log) :
  Forall (fun log => 0 < amount log) l -> 0 <= sum_amounts l.
Proof. induction 1; simpl; lia. Qed.

Lemma Qnum_pos (x : Q) : (0 < x)%Q -> 0 < Qnum x.
Proof. unfold Qlt. simpl. lia. Qed.

Lemma two_power_pos (k : Z) : (0 < 2 ^ k)%Q.
Proof. apply Qpower_0_lt. reflexivity. Qed.

Lemma floor_log2_le (x : Q) : (0 < x)%Q -> (2 ^ floor_log2 x <= x)%Q.
Proof.
  intros Hx. unfold floor_log2.
  set (a := Z.log2 (Qnum x)). set (b := Z.log2 (Z.pos (Qden x))).
  destruct (Qle_bool (2 ^ (a - b)) x) eqn:E.
  - now apply Qle_bool_iff.
  - pose proof (Qnum_pos x Hx) as Hn.
    assert (Ha : 2 ^ a <= Qnum x) by (apply Z.log2_spec; lia).
    assert (Hb : Z.pos (Qden x) < 2 ^ (b + 1)).
    { replace (b + 1) with (Z.succ b) by lia. apply Z.log2_spec. lia. }
    assert (Ha0 : 0 <= a) by apply Z.log2_nonneg.
    assert (Hb0 : 0 <= b) by apply Z.log2_nonneg.
    replace (a - b - 1) with (a - (b + 1)) by lia.
    rewrite Qpower_minus by discriminate.
    rewrite <- (Zpower_Qpower 2 a) by lia.
    rewrite <- (Zpower_Qpower 2 (b + 1)) by lia.
    clearbody a b. destruct x as [n d]. cbn [Qnum Qden] in *.
    rewrite (Qmake_Qdiv n d).
    assert (H1 : (0 < inject_Z (2 ^ (b + 1)))%Q).
    { rewrite <- (Zlt_Qlt 0). lia. }
    assert (H2 : (0 < inject_Z (Z.pos d))%Q) by (rewrite <- (Zlt_Qlt 0); lia).
    apply Qle_shift_div_l; [exact H2|].
    unfold Qdiv. rewrite <- Qmult_assoc, (Qmult_comm (/ _)), Qmult_assoc.
    apply Qle_shift_div_r; [exact H1|].
    rewrite <- !inject_Z_mult, <- Zle_Qle. nia.
Qed.

Lemma round_half_even_close (z : Q) :
  (z - (1 # 2) <= inject_Z (round_half_even z) <= z + (1 # 2))%Q.
Proof.
  unfold round_half_even.
  pose proof (Qfloor_le z) as Hlo. pose proof (Qlt_floor z) as Hhi.
  rewrite inject_Z_plus in Hhi. change (inject_Z 1) with 1%Q in Hhi.
  destruct (z - inject_Z (Qfloor z) ?= 1 # 2)%Q eqn:C.
  - apply Qeq_alt in C. destruct (Z.even (Qfloor z));
      rewrite ?inject_Z_plus; change (inject_Z 1) with 1%Q; lra.
  - apply Qlt_alt in C. lra.
  - apply Qgt_alt in C. rewrite inject_Z_plus. change (inject_Z 1) with 1%Q. lra.
Qed.

(** A positive number and its double differ by at most one part in 2^53. *)
Lemma round_to_double_close (x : Q) :
  (0 < x)%Q ->
  (x * (1 - (1 # 9007199254740992)) <= round_to_double x
   <= x * (1 + (1 # 9007199254740992)))%Q.
Proof.
  intros Hx. unfold round_to_double.
  pose proof (Qnum_pos x Hx) as Hn.
  destruct (Qnum x) as [|n|n] eqn:En; try lia.
  set (e := floor_log2 x).
  pose proof (floor_log2_le x Hx) as He. fold e in He.
  pose proof (round_half_even_close (x * 2 ^ (52 - e))) as [Hlo Hhi].
  set (M := inject_Z (round_half_even (x * 2 ^ (52 - e)))) in *.
  pose proof (two_power_pos (e - 52)) as Hp'.
  assert (E1 : (2 ^ (52 - e) * 2 ^ (e - 52) == 1)%Q).
  { rewrite <- Qpower_plus by discriminate.
    replace (52 - e + (e - 52)) with 0 by lia. reflexivity. }
  assert (E2 : (2 ^ (e - 52) == 2 ^ e * (1 # 4503599627370496))%Q).
  { unfold Z.sub. rewrite Qpower_plus by discriminate. reflexivity. }
  set (P := (2 ^ (52 - e))%Q) in *. set (P' := (2 ^ (e - 52))%Q) in *.
  set (E := (2 ^ e)%Q) in *.
  assert (L1 : ((x * P - (1 # 2)) * P' <= M * P')%Q)
    by (apply Qmult_le_compat_r; lra).
  assert (L2 : (M * P' <= (x * P + (1 # 2)) * P')%Q)
    by (apply Qmult_le_compat_r; lra).
  assert (E3 : ((x * P - (1 # 2)) * P' == x * (P * P') - (1 # 2) * P')%Q) by ring.
  assert (E4 : ((x * P + (1 # 2)) * P' == x * (P * P') + (1 # 2) * P')%Q) by ring.
  rewrite E3 in L1. rewrite E4 in L2. rewrite E1 in L1, L2.
  lra.
Qed.

Lemma Qfloor_ge (z : Z) (y : Q) : z <= Qfloor y <-> (inject_Z z <= y)%Q.
Proof.
  split; intros H.
  - apply Qle_trans with (inject_Z (Qfloor y)); [|apply Qfloor_le].
    now rewrite <- Zle_Qle.
  - rewrite <- (Qfloor_Z z). now apply Qfloor_resp_le.
Qed.

(** The rounded percentage of [p] out of [t], before the cap. *)
Lemma rounded_percentage (p t : Z) :
  0 < t -> 0 <= p ->
  let r := Math_round (Number_mul (Number_div (inject_Z p) (inject_Z t))
                                  (inject_Z 100)) in
  0 <= r
  /\ (199 * t * 2 ^ 106 <= 200 * p * (2 ^ 53 - 1) ^ 2 -> 100 <= r)
  /\ (100 <= r -> 199 * t * 2 ^ 106 <= 200 * p * (2 ^ 53 + 1) ^ 2).
Proof.
  intros Ht Hp r.
  destruct (Z.eq_dec p 0) as [->|Hp0].
  { assert (Er : r = 0).
    { unfold r, Number_div, Number_mul, round_to_double, Math_round.
      destruct t; try lia. reflexivity. }
    rewrite Er. repeat split; lia. }
  assert (HT : (0 < inject_Z t)%Q) by (rewrite <- (Zlt_Qlt 0); lia).
  assert (HP : (0 < inject_Z p)%Q) by (rewrite <- (Zlt_Qlt 0); lia).
  assert (HX : (0 < inject_Z p / inject_Z t)%Q)
    by (apply Qlt_shift_div_l; [exact HT|lra]).
  assert (EX : (inject_Z p / inject_Z t * inject_Z t == inject_Z p)%Q)
    by (rewrite Qmult_comm; apply Qmult_div_r; lra).
  unfold r, Number_mul, Number_div, Math_round.
  pose proof (round_to_double_close _ HX) as [Hq1 Hq2].
  set (X := (inject_Z p / inject_Z t)%Q) in *.
  set (q := round_to_double X) in *.
  assert (Hq : (0 < q * inject_Z 100)%Q).
  { change (inject_Z 100) with 100%Q. lra. }
  pose proof (round_to_double_close _ Hq) as [Hr1 Hr2].
  change (inject_Z 100) with 100%Q in *.
  set (y := round_to_double (q * 100)) in *.
  split; [|split].
  - apply Qfloor_ge. change (inject_Z 0) with 0%Q. lra.
  - intros H. apply Qfloor_ge. change (inject_Z 100) with 100%Q.
    assert (HXc : (inject_Z (199 * 2 ^ 106) / inject_Z (200 * (2 ^ 53 - 1) ^ 2)
                   <= X)%Q).
    { unfold X. apply Qle_shift_div_l; [exact HT|].
      unfold Qdiv. rewrite <- Qmult_assoc, (Qmult_comm (/ _)), Qmult_assoc.
      apply Qle_shift_div_r; [reflexivity|].
      rewrite <- !inject_Z_mult, <- Zle_Qle. lia. }
    vm_compute (inject_Z (199 * 2 ^ 106) / inject_Z (200 * (2 ^ 53 - 1) ^ 2))%Q in HXc.
    lra.
  - intros H. apply Qfloor_ge in H. change (inject_Z 100) with 100%Q in H.
    assert (HXc : (inject_Z (199 * 2 ^ 106) / inject_Z (200 * (2 ^ 53 + 1) ^ 2)
                   <= X)%Q).
    { vm_compute (inject_Z (199 * 2 ^ 106) / inject_Z (200 * (2 ^ 53 + 1) ^ 2))%Q.
      lra. }
    apply (Qmult_le_compat_r _ _ (inject_Z t)) in HXc; [|lra].
    rewrite EX in HXc.
    rewrite Zle_Qle, !inject_Z_mult.
    vm_compute (inject_Z (2 ^ 106)). vm_compute (inject_Z ((2 ^ 53 + 1) ^ 2)).
    vm_compute (inject_Z 199). vm_compute (inject_Z 200).
    vm_compute (inject_Z (199 * 2 ^ 106) / inject_Z (200 * (2 ^ 53 + 1) ^ 2))%Q in HXc.
    lra.
Qed.

(** C2, the counterexample: 999 pages of 1000 already show as 100 percent. *)
Lemma progressPercentage_full_before_target :
  getProgressPercentage almost_read = 100
  /\ getTotalProgress almost_read = 999
  /\ total almost_read = 1000
  /\ ~ (getTotalProgress almost_read >= total almost_read).
Proof. vm_compute. repeat split; try reflexivity. intros H; apply H; reflexivity. Qed.

(** The quotient and the product are rounded to doubles before [Math.round]
    sees them: 23 of 40 is 57.5 exactly, 57.49999999999999 as computed, and
    shows as 57. *)
Example percentage_of_a_tie :
  getTotalProgress tie_book = 23 /\ total tie_book = 40
  /\ getProgressPercentage tie_book = 57.
Proof. vm_compute. repeat split. Qed.

(** C2, as amended: for a book whose target and progress are non-negative
    integers below 2^53 the percentage lies in [0,100]; with target 0 it is
    0; with a positive target it is 100 whenever the progress has reached
    the target, and already before that: whenever
    199 * target * 2^106 <= 200 * progress * (2^53 - 1)^2, that is whenever
    100 * progress / target is 99.5 or more by a margin of two roundings;
    and it is 100 only if the target is positive and
    199 * target * 2^106 <= 200 * progress * (2^53 + 1)^2. *)
Theorem progressPercentage_range_and_full (b : Book) :
  0 <= total b < 2 ^ 53 ->
  0 <= getTotalProgress b < 2 ^ 53 ->
  0 <= getProgressPercentage b <= 100
  /\ (total b = 0 -> getProgressPercentage b = 0)
  /\ (0 < total b -> getTotalProgress b >= total b ->
      getProgressPercentage b = 100)
  /\ (0 < total b ->
      199 * total b * 2 ^ 106 <= 200 * getTotalProgress b * (2 ^ 53 - 1) ^ 2 ->
      getProgressPercentage b = 100)
  /\ (getProgressPercentage b = 100 ->
      0 < total b
      /\ 199 * total b * 2 ^ 106
         <= 200 * getTotalProgress b * (2 ^ 53 + 1) ^ 2).
Proof.
  intros Ht Hp.
  destruct (Z.eq_dec (total b) 0) as [E0|Hne].
  - assert (Hz : getProgressPercentage b = 0)
      by (unfold getProgressPercentage; rewrite E0; reflexivity).
    rewrite Hz. repeat split; try lia.
  - assert (Hpos : 0 < total b) by lia.
    destruct (rounded_percentage (getTotalProgress b) (total b) Hpos (proj1 Hp))
      as (H0 & Hsuff & Hnec).
    unfold getProgressPercentage.
    destruct (total b =? 0) eqn:E; [apply Z.eqb_eq in E; lia|].
    cbv zeta in *.
    set (r := Math_round _) in *.
    split; [lia|]. split; [lia|]. split; [|split].
    + intros _ Hge.
      assert (100 <= r) by (apply Hsuff; nia). lia.
    + intros _ Hle. specialize (Hsuff Hle). lia.
    + intros H100. split; [exact Hpos|]. apply Hnec. lia.
Qed.

Lemma progressPercentage_range_and_full_witness :
  0 <= getProgressPercentage Scenario.dune <= 100
  /\ (total Scenario.dune = 0 -> getProgressPercentage Scenario.dune = 0)
  /\ (0 < total Scenario.dune ->
      getTotalProgress Scenario.dune >= total Scenario.dune ->
      getProgressPercentage Scenario.dune = 100)
  /\ (0 < total Scenario.dune ->
      199 * total Scenario.dune * 2 ^ 106
      <= 200 * getTotalProgress Scenario.dune * (2 ^ 53 - 1) ^ 2 ->
      getProgressPercentage Scenario.dune = 100)
  /\ (getProgressPercentage Scenario.dune = 100 ->
      0 < total Scenario.dune
      /\ 199 * total Scenario.dune * 2 ^ 106
         <= 200 * getTotalProgress Scenario.dune * (2 ^ 53 + 1) ^ 2).
Proof.
  apply (progressPercentage_range_and_full Scenario.dune);
    (split; [apply Z.leb_le|apply Z.ltb_lt]; reflexivity).
Defined.


(** The scenarios of the specification. *)
Example scenario_first_log :
  map (fun b => (getTotalProgress b, getProgressPercentage b,
                 getRemainingAmount b, status b))
      (books Scenario.s1)
  = [(100, 25, 300, in_progress)].
Proof. reflexivity. Qed.

Example scenario_toggle :
  map (fun b => (map amount (logs b), getTotalProgress b,
                 getProgressPercentage b, status b, completed b))
      (books Scenario.s2)
  = [([300; 100], 400, 100, completed_status, true)].
Proof. reflexivity. Qed.

Example scenario_three_days :
  currentStreak Scenario.s3 = 3 /\ longestStreak Scenario.s3 = 3.
Proof. split; reflexivity. Qed.

Example scenario_delete :
  books Scenario.s4 = [] /\ longestStreak Scenario.s4 = 3.
Proof. split; reflexivity. Qed.

(* ================================================================== *)
(** ** Sorting and the date set *)
(* ================================================================== *)

Section ArraySortFacts.
Context {A : Type} (compareFn : A -> A -> Z).

Lemma sort_insert_perm (x : A) (l : list A) :
  Permutation (sort_insert compareFn x l) (x :: l).
Proof.
  induction l as [|y l IH]; simpl.
  - reflexivity.
  - destruct (compareFn x y >? 0).
    + rewrite IH. apply perm_swap.
    + reflexivity.
Qed.

Lemma array_sort_perm (l : list A) : Permutation (array_sort compareFn l) l.
Proof.
  induction l as [|x l IH]; simpl.
  - reflexivity.
  - rewrite sort_insert_perm. now constructor.
Qed.

Lemma array_sort_length (l : list A) :
  List.length (array_sort compareFn l) = List.length l.
Proof. apply Permutation_length, array_sort_perm. Qed.

Hypothesis compare_total :
  forall x y, compareFn x y > 0 -> compareFn y x <= 0.

Lemma sort_insert_sorted (x : A) (l : list A) :
  Sorted (in_order compareFn) l ->
  Sorted (in_order compareFn) (sort_insert compareFn x l).
Proof.
  induction 1 as [|y l Hs IH Hhd]; simpl.
  - repeat constructor.
  - destruct (compareFn x y >? 0) eqn:E.
    + constructor; [assumption|].
      destruct l as [|z l]; simpl in *.
      * constructor. apply compare_total. lia.
      * destruct (compareFn x z >? 0).
        -- constructor. now inversion Hhd.
        -- constructor. apply compare_total. lia.
    + constructor; [now constructor|]. constructor. unfold in_order. lia.
Qed.

Lemma array_sort_sorted (l : list A) :
  Sorted (in_order compareFn) (array_sort compareFn l).
Proof.
  induction l as [|x l IH]; simpl.
  - constructor.
  - now apply sort_insert_sorted.
Qed.
End ArraySortFacts.

(** The logs of a book come out newest first. *)
Lemma push_log_sorted (entry : Log) (b : Book) :
  Sorted (fun x y => date y <= date x) (logs (push_log entry b)).
Proof.
  pose proof (array_sort_sorted (fun x y : Log => date y - date x)
                (fun x y H => ltac:(lia)) (logs b ++ [entry])) as H.
  simpl. eapply Sorted_ind with (P := fun l => Sorted _ l); [| |exact H].
  - constructor.
  - intros a l _ IH Hhd. constructor; [exact IH|].
    destruct Hhd; constructor. unfold in_order in *. lia.
Qed.

Lemma push_log_perm (entry : Log) (b : Book) :
  Permutation (logs (push_log entry b)) (entry :: logs b).
Proof.
  simpl. rewrite array_sort_perm. symmetry. apply Permutation_cons_append.
Qed.






(* ================================================================== *)
(** ** What each procedure leaves alone *)
(* ================================================================== *)

Lemma find_book_absent (bookId : string) (l : list Book) :
  ~ In bookId (map id l) -> find_book bookId l = None.
Proof.
  unfold find_book. induction l as [|b l IH]; simpl; intros H.
  - reflexivity.
  - destruct (String.eqb_spec (id b) bookId) as [E|E].
    + exfalso. apply H. now left.
    + apply IH. intros Hin. apply H. now right.
Qed.

Lemma find_book_id (bookId : string) (l : list Book) (b : Book) :
  find_book bookId l = Some b -> id b = bookId.
Proof.
  unfold find_book. intros H. apply find_some in H as [_ H].
  now apply String.eqb_eq.
Qed.

(** The book that [find_book] returns splits the array, and the mutation
    lands on exactly that element. *)
Lemma mutate_book_split (bookId : string) (f : Book -> Book) (l : list Book)
    (b : Book) :
  find_book bookId l = Some b ->
  exists pre post,
    l = pre ++ b :: post
    /\ mutate_book bookId f l = pre ++ f b :: post
    /\ ~ In bookId (map id pre).
Proof.
  unfold find_book. induction l as [|x l IH]; simpl; [discriminate|].
  destruct (String.eqb_spec (id x) bookId) as [E|E]; intros H.
  - injection H as <-. exists [], l. simpl. tauto.
  - destruct (IH H) as (pre & post & -> & Hm & Hpre).
    exists (x :: pre), post. simpl. rewrite Hm. repeat split.
    intros [Hx|Hin]; [now apply E|now apply Hpre].
Qed.

Lemma find_book_mutate (bookId : string) (f : Book -> Book) (l : list Book)
    (b : Book) :
  find_book bookId l = Some b ->
  id (f b) = id b ->
  find_book bookId (mutate_book bookId f l) = Some (f b).
Proof.
  unfold find_book. induction l as [|x l IH]; simpl; [discriminate|].
  destruct (String.eqb_spec (id x) bookId) as [E|E]; intros H Hid.
  - injection H as <-. simpl. rewrite Hid. now rewrite (proj2 (String.eqb_eq _ _) E).
  - simpl. rewrite (proj2 (String.eqb_neq _ _) E). now apply IH.
Qed.

Lemma updateStatus_fields (b : Book) :
  id (updateStatus b) = id b /\ name (updateStatus b) = name b
  /\ author (updateStatus b) = author b /\ type (updateStatus b) = type b
  /\ total (updateStatus b) = total b /\ category (updateStatus b) = category b
  /\ coverUrl (updateStatus b) = coverUrl b /\ logs (updateStatus b) = logs b.
Proof.
  unfold updateStatus.
  destruct (getTotalProgress b =? 0); [|destruct (getTotalProgress b >=? total b)];
    simpl; repeat split.
Qed.

Lemma updateStatus_total_progress (b : Book) :
  getTotalProgress (updateStatus b) = getTotalProgress b.
Proof.
  unfold getTotalProgress.
  now replace (logs (updateStatus b)) with (logs b)
    by (symmetry; apply updateStatus_fields).
Qed.

(** [updateStreaks] writes the two counters and nothing else. *)
Lemma updateStreaks_frame (now : Clock) (s : Store) :
  books (updateStreaks now s) = books s
  /\ activityFeed (updateStreaks now s) = activityFeed s
  /\ achievements (updateStreaks now s) = achievements s
  /\ dailyGoal (updateStreaks now s) = dailyGoal s
  /\ localStorage (updateStreaks now s) = localStorage s.
Proof.
  unfold updateStreaks. destruct (List.length (allDates (books s)) =? 0)%nat;
    simpl; repeat split.
Qed.

(** One catalogue entry checked: books, counters and daily goal stay. *)
Lemma check_one_frame (now : Clock) (acc : Store * bool) (a : AchievementDef) :
  books (fst (check_one now acc a)) = books (fst acc)
  /\ currentStreak (fst (check_one now acc a)) = currentStreak (fst acc)
  /\ longestStreak (fst (check_one now acc a)) = longestStreak (fst acc)
  /\ dailyGoal (fst (check_one now acc a)) = dailyGoal (fst acc).
Proof.
  destruct acc as [s u]. unfold check_one.
  destruct (find_achievement (def_id a) (achievements s)) as [ua|];
    [destruct (negb (unlocked ua) && check a s)|]; simpl; repeat split.
Qed.

Lemma check_all_frame (now : Clock) (l : list AchievementDef) (acc : Store * bool) :
  books (fst (fold_left (check_one now) l acc)) = books (fst acc)
  /\ currentStreak (fst (fold_left (check_one now) l acc)) = currentStreak (fst acc)
  /\ longestStreak (fst (fold_left (check_one now) l acc)) = longestStreak (fst acc)
  /\ dailyGoal (fst (fold_left (check_one now) l acc)) = dailyGoal (fst acc).
Proof.
  revert acc; induction l as [|a l IH]; intros acc; simpl.
  - repeat split.
  - destruct (IH (check_one now acc a)) as (-> & -> & -> & ->).
    apply check_one_frame.
Qed.

Lemma checkAchievements_frame (now : Clock) (s : Store) :
  books (checkAchievements now s) = books s
  /\ currentStreak (checkAchievements now s) = currentStreak s
  /\ longestStreak (checkAchievements now s) = longestStreak s
  /\ dailyGoal (checkAchievements now s) = dailyGoal s.
Proof.
  unfold checkAchievements.
  pose proof (check_all_frame now achievementsList (s, false)) as H.
  destruct (fold_left (check_one now) achievementsList (s, false)) as [s' u].
  simpl in H. destruct u; simpl; exact H.
Qed.

Lemma checkAchievements_books (now : Clock) (s : Store) :
  books (checkAchievements now s) = books s.
Proof. apply checkAchievements_frame. Qed.

Lemma checkAchievements_longestStreak (now : Clock) (s : Store) :
  longestStreak (checkAchievements now s) = longestStreak s.
Proof. apply checkAchievements_frame. Qed.

Lemma updateStreaks_books (now : Clock) (s : Store) :
  books (updateStreaks now s) = books s.
Proof. apply updateStreaks_frame. Qed.

Lemma addActivity_frame (now : Clock) (ty message bookName : string) (s : Store) :
  books (addActivity now ty message bookName s) = books s
  /\ currentStreak (addActivity now ty message bookName s) = currentStreak s
  /\ longestStreak (addActivity now ty message bookName s) = longestStreak s
  /\ achievements (addActivity now ty message bookName s) = achievements s
  /\ dailyGoal (addActivity now ty message bookName s) = dailyGoal s.
Proof. repeat split. Qed.

Lemma handleAddLog_books (now : Clock) (e : LogForm) (s : Store) (b : Book) :
  find_book (log_book_id e) (books s) = Some b ->
  books (handleAddLog now e s)
  = if log_amount b e <=? 0 then books s
    else mutate_book (log_book_id e)
           (fun b' => updateStatus (push_log (mkLog (log_date e) (log_amount b e)) b'))
           (books s).
Proof.
  intros H. unfold handleAddLog. rewrite H.
  destruct (log_amount b e <=? 0); [reflexivity|].
  rewrite checkAchievements_books.
  cbn [books addActivity set_activityFeed saveActivityFeed setItem saveStreaks].
  rewrite updateStreaks_books. reflexivity.
Qed.

Lemma toggleBookCompletion_books (now : Clock) (bookId : string) (s : Store)
    (b : Book) :
  find_book bookId (books s) = Some b ->
  books (toggleBookCompletion now bookId s)
  = mutate_book bookId
      (fun b' => updateStatus (set_completed b' (negb (completed b'))))
      (if negb (completed b) && (getRemainingAmount b >? 0)
       then mutate_book bookId
              (push_log (mkLog (utcDay now) (getRemainingAmount b))) (books s)
       else books s).
Proof.
  intros H. unfold toggleBookCompletion. rewrite H.
  rewrite checkAchievements_books.
  cbn [books saveStreaks setItem].
  rewrite updateStreaks_books.
  destruct (completed b); [reflexivity|].
  destruct (getRemainingAmount b >? 0); reflexivity.
Qed.

(* ================================================================== *)
(** ** Record store: rejected and unknown inputs *)
(* ================================================================== *)

(** C4: an append-log, a completion toggle, a category change or a deletion
    that names an id no book carries returns the store it was given: the
    books, both streak counters, the activity feed, the achievements and the
    trace of storage writes are all the same. *)
Theorem unknown_id_is_noop (now : Clock) (s : Store) (bookId : string) :
  ~ In bookId (map id (books s)) ->
  (forall e, log_book_id e = bookId -> handleAddLog now e s = s)
  /\ toggleBookCompletion now bookId s = s
  /\ (forall newCategory, changeBookCategory bookId newCategory s = s)
  /\ (forall confirmed, snd (deleteBook now confirmed bookId s) = s).
Proof.
  intros H. apply find_book_absent in H.
  repeat split.
  - intros e <-. unfold handleAddLog. now rewrite H.
  - unfold toggleBookCompletion. now rewrite H.
  - intros c. unfold changeBookCategory. now rewrite H.
  - intros confirmed. unfold deleteBook. rewrite H. now destruct confirmed.
Qed.

Lemma unknown_id_is_noop_witness :
  (forall e, log_book_id e = "42" ->
             handleAddLog (Scenario.at_day 19725) e Scenario.s1 = Scenario.s1)
  /\ toggleBookCompletion (Scenario.at_day 19725) "42" Scenario.s1 = Scenario.s1
  /\ (forall newCategory, changeBookCategory "42" newCategory Scenario.s1 = Scenario.s1)
  /\ (forall confirmed,
        snd (deleteBook (Scenario.at_day 19725) confirmed "42" Scenario.s1)
        = Scenario.s1).
Proof.
  apply (unknown_id_is_noop (Scenario.at_day 19725) Scenario.s1 "42").
  vm_compute. intros [H|[]]. discriminate H.
Defined.

(** A confirmed deletion of an unknown id ends in the exception raised by
    reading [name] of [undefined]. *)
Lemma deleteBook_unknown_throws (now : Clock) (s : Store) (bookId : string) :
  ~ In bookId (map id (books s)) ->
  fst (deleteBook now true bookId s) = Throw "TypeError".
Proof.
  intros H. apply find_book_absent in H. unfold deleteBook. now rewrite H.
Qed.

(** [trim] strips the white space beyond ASCII as well, and nothing else. *)
Example trim_unicode_white_space :
  trim (Scenario.wide_blank ++ "Dune  Messiah" ++ Scenario.wide_blank)%string
  = "Dune  Messiah"
  /\ trim Scenario.wide_blank = ""
  /\ trim Scenario.zero_width_space = Scenario.zero_width_space.
Proof. vm_compute. repeat split. Qed.

(** C7: a new book whose trimmed name or trimmed author is empty or whose
    total is not positive, and a log whose amount is not positive, are turned
    down with the store exactly as it was. *)
Theorem invalid_input_rejected (now : Clock) (s : Store) :
  (forall e : BookForm,
      trim (book_name e) = "" \/ trim (book_author e) = ""
      \/ form_total (book_type e) (total_pages e) (total_hours e)
           (total_minutes e) <= 0 ->
      handleAddBook now e s = s)
  /\ (forall e : LogForm,
        (forall book, find_book (log_book_id e) (books s) = Some book ->
                      log_amount book e <= 0) ->
        handleAddLog now e s = s).
Proof.
  split.
  - intros e H. unfold handleAddBook.
    destruct H as [H|[H|H]].
    + rewrite H. reflexivity.
    + rewrite H. simpl. now rewrite orb_true_r.
    + apply Z.leb_le in H. rewrite H. now rewrite !orb_true_r.
  - intros e H. unfold handleAddLog.
    destruct (find_book (log_book_id e) (books s)) as [book|]; [|reflexivity].
    specialize (H book eq_refl). apply Z.leb_le in H. now rewrite H.
Qed.

(* ================================================================== *)
(** ** Streak calculator: the empty date set *)
(* ================================================================== *)

(** C6: when no book holds a log date, [updateStreaks] sets the current and
    the longest streak to 0. *)
Theorem updateStreaks_no_dates (now : Clock) (s : Store) :
  allDates (books s) = [] ->
  currentStreak (updateStreaks now s) = 0
  /\ longestStreak (updateStreaks now s) = 0.
Proof.
  intros H. unfold updateStreaks. rewrite H. simpl. split; reflexivity.
Qed.

Lemma updateStreaks_no_dates_witness :
  longestStreak Scenario.s4 = 3
  /\ currentStreak (updateStreaks (Scenario.at_day 19725) Scenario.s4) = 0
  /\ longestStreak (updateStreaks (Scenario.at_day 19725) Scenario.s4) = 0.
Proof.
  split; [reflexivity|].
  apply (updateStreaks_no_dates (Scenario.at_day 19725) Scenario.s4).
  reflexivity.
Defined.

Lemma invalid_input_rejected_witness :
  handleAddBook (Scenario.at_day 19725)
    (mkBookForm Scenario.wide_blank "Herbert" paper mama "" (Some 400) None None)
    Scenario.s1
  = Scenario.s1
  /\ handleAddLog (Scenario.at_day 19725)
       (mkLogForm Scenario.dune_id 19725 (Some 0) None None) Scenario.s1
     = Scenario.s1.
Proof.
  split.
  - apply (proj1 (invalid_input_rejected (Scenario.at_day 19725) Scenario.s1)).
    left. reflexivity.
  - apply (proj2 (invalid_input_rejected (Scenario.at_day 19725) Scenario.s1)).
    intros book H. vm_compute in H. injection H as <-. vm_compute. discriminate.
Defined.

(* ================================================================== *)
(** ** Record store: appending a log *)
(* ================================================================== *)

(** C10: [handleAddLog] on a known id changes one element of [books], the
    first with that id; the books before and after it are the same objects
    with the same fields, and the changed book keeps its id, name, author,
    type, total, category and cover. *)
Theorem handleAddLog_frame (now : Clock) (e : LogForm) (s : Store) (b : Book) :
  find_book (log_book_id e) (books s) = Some b ->
  exists pre post b',
    books s = pre ++ b :: post
    /\ books (handleAddLog now e s) = pre ++ b' :: post
    /\ ~ In (log_book_id e) (map id pre)
    /\ id b' = id b /\ name b' = name b /\ author b' = author b
    /\ type b' = type b /\ total b' = total b /\ category b' = category b
    /\ coverUrl b' = coverUrl b.
Proof.
  intros H. rewrite (handleAddLog_books now e s b H).
  destruct (log_amount b e <=? 0).
  - destruct (mutate_book_split _ (fun x => x) _ _ H) as (pre & post & E & _ & Hpre).
    exists pre, post, b. rewrite <- E. repeat split; assumption.
  - destruct (mutate_book_split _
                (fun b' => updateStatus
                             (push_log (mkLog (log_date e) (log_amount b e)) b'))
                _ _ H) as (pre & post & E & Em & Hpre).
    eexists pre, post, _. split; [exact E|]. split; [exact Em|].
    split; [exact Hpre|].
    destruct (updateStatus_fields
                (push_log (mkLog (log_date e) (log_amount b e)) b))
      as (-> & -> & -> & -> & -> & -> & -> & _).
    repeat split.
Qed.

Lemma handleAddLog_frame_witness :
  exists pre post b',
    books Scenario.s1 = pre ++ Scenario.dune :: post
    /\ books (handleAddLog (Scenario.at_day 19725)
                (mkLogForm Scenario.dune_id 19725 (Some 20) None None) Scenario.s1)
       = pre ++ b' :: post
    /\ ~ In Scenario.dune_id (map id pre)
    /\ id b' = id Scenario.dune /\ name b' = name Scenario.dune
    /\ author b' = author Scenario.dune /\ type b' = type Scenario.dune
    /\ total b' = total Scenario.dune /\ category b' = category Scenario.dune
    /\ coverUrl b' = coverUrl Scenario.dune.
Proof.
  apply (handleAddLog_frame (Scenario.at_day 19725)
           (mkLogForm Scenario.dune_id 19725 (Some 20) None None)
           Scenario.s1 Scenario.dune).
  reflexivity.
Defined.

(* ================================================================== *)
(** ** Record store: the completion toggle *)
(* ================================================================== *)



(** C3, the counterexample: the fully read book of the scenario is still
    flagged completed after toggling it off. *)
Lemma toggle_off_full_book_stays_completed :
  option_map completed (find_book Scenario.dune_id (books Scenario.s2)) = Some true
  /\ option_map getTotalProgress (find_book Scenario.dune_id (books Scenario.s2))
     = Some 400
  /\ option_map completed
       (find_book Scenario.dune_id
          (books (toggleBookCompletion (Scenario.at_day 19726) Scenario.dune_id
                    Scenario.s2)))
     = Some true.
Proof. vm_compute. repeat split. Qed.

(** C3, as amended: toggling a book that is flagged completed removes no log
    and leaves its progress as it was; the flag ends false exactly when the
    progress is 0 or below the total, and true when the progress is non-zero
    and has reached the total, since [updateStatus] runs after the flip. *)
Theorem toggle_off_keeps_history (now : Clock) (bookId : string) (s : Store)
    (b : Book) :
  find_book bookId (books s) = Some b ->
  completed b = true ->
  exists b',
    find_book bookId (books (toggleBookCompletion now bookId s)) = Some b'
    /\ logs b' = logs b
    /\ getTotalProgress b' = getTotalProgress b
    /\ (completed b' = false
        <-> getTotalProgress b = 0 \/ getTotalProgress b < total b)
    /\ (completed b' = true
        <-> getTotalProgress b <> 0 /\ getTotalProgress b >= total b).
Proof.
  intros H Hc.
  rewrite (toggleBookCompletion_books now bookId s b H), Hc. simpl andb. cbv iota.
  set (flip := fun b' : Book => updateStatus (set_completed b' (negb (completed b')))).
  assert (Hid : id (flip b) = id b)
    by exact (proj1 (updateStatus_fields (set_completed b (negb (completed b))))).
  exists (flip b). split; [now apply find_book_mutate|].
  unfold flip. rewrite Hc. simpl negb.
  destruct (updateStatus_fields (set_completed b false))
    as (_ & _ & _ & _ & _ & _ & _ & Elogs).
  rewrite updateStatus_total_progress, Elogs.
  split; [reflexivity|]. split; [reflexivity|].
  unfold updateStatus.
  change (getTotalProgress (set_completed b false)) with (getTotalProgress b).
  change (total (set_completed b false)) with (total b).
  destruct (Z.eqb_spec (getTotalProgress b) 0) as [E|E].
  - simpl. split; split; intros; try lia; try discriminate; auto.
  - destruct (getTotalProgress b >=? total b) eqn:G; simpl.
    + apply Z.geb_le in G. split; split; intros; try lia; try discriminate; auto.
    + assert (getTotalProgress b < total b)
        by (destruct (Z_lt_le_dec (getTotalProgress b) (total b)) as [|L];
            [assumption|apply Z.geb_le in L; congruence]).
      split; split; intros; try lia; try discriminate; auto.
Qed.

Lemma toggle_off_keeps_history_witness :
  exists b',
    find_book "9"
      (books (toggleBookCompletion (Scenario.at_day 19726) "9"
                Scenario.reopened)) = Some b'
    /\ logs b' = logs Scenario.longer_edition
    /\ getTotalProgress b' = getTotalProgress Scenario.longer_edition
    /\ (completed b' = false
        <-> getTotalProgress Scenario.longer_edition = 0
            \/ getTotalProgress Scenario.longer_edition
               < total Scenario.longer_edition)
    /\ (completed b' = true
        <-> getTotalProgress Scenario.longer_edition <> 0
            /\ getTotalProgress Scenario.longer_edition
               >= total Scenario.longer_edition).
Proof.
  apply (toggle_off_keeps_history (Scenario.at_day 19726) "9"
           Scenario.reopened Scenario.longer_edition); reflexivity.
Defined.

(* ================================================================== *)
(** ** Streak calculator: the longest streak over a run *)
(* ================================================================== *)

(** With a date in the set, the new longest streak is a maximum that
    includes the old one. *)
Lemma updateStreaks_longest_le (now : Clock) (s : Store) :
  (List.length (allDates (books s)) =? 0)%nat = false ->
  longestStreak s <= longestStreak (updateStreaks now s).
Proof.
  intros H. unfold updateStreaks. rewrite H. simpl. lia.
Qed.

Lemma handleAddBook_longestStreak (now : Clock) (e : BookForm) (s : Store) :
  longestStreak (handleAddBook now e s) = longestStreak s.
Proof.
  unfold handleAddBook.
  destruct (_ || _ || _); [reflexivity|].
  now rewrite checkAchievements_longestStreak.
Qed.

Lemma handleEditBook_longestStreak (now : Clock) (e : EditForm) (s : Store) :
  longestStreak (handleEditBook now e s) = longestStreak s.
Proof.
  unfold handleEditBook. now destruct (find_book _ _).
Qed.

Lemma changeBookCategory_longestStreak (bookId : string) (c : Category) (s : Store) :
  longestStreak (changeBookCategory bookId c s) = longestStreak s.
Proof.
  unfold changeBookCategory. now destruct (find_book _ _).
Qed.

Lemma deleteBook_longestStreak (now : Clock) (confirmed : bool)
    (bookId : string) (s : Store) :
  longestStreak (snd (deleteBook now confirmed bookId s)) = longestStreak s.
Proof.
  unfold deleteBook. destruct confirmed; [|reflexivity].
  now destruct (find_book _ _).
Qed.

(** A handler that recomputes: the store it leaves has the books and the
    longest streak of [updateStreaks] run on some store with the old longest
    streak. *)
Lemma handleAddLog_recomputes (now : Clock) (e : LogForm) (s : Store) :
  handleAddLog now e s = s
  \/ exists s', longestStreak s' = longestStreak s
                /\ books (handleAddLog now e s) = books s'
                /\ longestStreak (handleAddLog now e s)
                   = longestStreak (updateStreaks now s').
Proof.
  unfold handleAddLog.
  destruct (find_book (log_book_id e) (books s)) as [b|]; [|now left].
  destruct (log_amount b e <=? 0); [now left|]. right.
  eexists. split; [|split].
  2: { rewrite checkAchievements_books.
       cbn [books addActivity set_activityFeed saveActivityFeed setItem saveStreaks].
       rewrite updateStreaks_books. reflexivity. }
  - reflexivity.
  - rewrite checkAchievements_longestStreak. reflexivity.
Qed.

Lemma toggleBookCompletion_recomputes (now : Clock) (bookId : string) (s : Store) :
  toggleBookCompletion now bookId s = s
  \/ exists s', longestStreak s' = longestStreak s
                /\ books (toggleBookCompletion now bookId s) = books s'
                /\ longestStreak (toggleBookCompletion now bookId s)
                   = longestStreak (updateStreaks now s').
Proof.
  unfold toggleBookCompletion.
  destruct (find_book bookId (books s)) as [b|]; [|now left]. right.
  eexists. split; [|split].
  2: { rewrite checkAchievements_books. cbn [books saveStreaks setItem].
       rewrite updateStreaks_books. reflexivity. }
  - destruct (completed b); [reflexivity|].
    destruct (getRemainingAmount b >? 0); reflexivity.
  - rewrite checkAchievements_longestStreak. reflexivity.
Qed.

Lemma step_longestStreak (op : Op) (s : Store) :
  is_import op = false ->
  negb (recomputes_streaks op s)
  || negb (List.length (allDates (books (step op s))) =? 0)%nat = true ->
  longestStreak s <= longestStreak (step op s).
Proof.
  intros Hi Hd.
  destruct op as [now e|now e|bookId c|now bookId|now confirmed bookId|now e
                 |now|now|now|now parsed confirmed];
    cbn [is_import] in Hi; try discriminate Hi;
    cbn [step recomputes_streaks] in *.
  - rewrite handleAddBook_longestStreak. lia.
  - destruct (find_book (log_book_id e) (books s)) as [b|] eqn:F.
    + destruct (log_amount b e <=? 0) eqn:A.
      * unfold handleAddLog. rewrite F, A. lia.
      * cbn [negb orb] in Hd.
        destruct (handleAddLog_recomputes now e s) as [->|(s' & El & Eb & E)];
          [lia|].
        rewrite E, <- El. apply updateStreaks_longest_le.
        rewrite Eb in Hd. now apply negb_true_iff in Hd.
    + unfold handleAddLog. rewrite F. lia.
  - rewrite changeBookCategory_longestStreak. lia.
  - destruct (find_book bookId (books s)) as [b|] eqn:F.
    + cbn [negb orb] in Hd.
      destruct (toggleBookCompletion_recomputes now bookId s)
        as [->|(s' & El & Eb & E)]; [lia|].
      rewrite E, <- El. apply updateStreaks_longest_le.
      rewrite Eb in Hd. now apply negb_true_iff in Hd.
    + unfold toggleBookCompletion. rewrite F. lia.
  - rewrite deleteBook_longestStreak. lia.
  - rewrite handleEditBook_longestStreak. lia.
  - cbn [negb orb] in Hd. apply updateStreaks_longest_le.
    rewrite updateStreaks_books in Hd. now apply negb_true_iff in Hd.
  - rewrite checkAchievements_longestStreak. lia.
  - cbn [snd exportData addActivity set_activityFeed saveActivityFeed setItem
         longestStreak]. lia.
Qed.

(** C1, the counterexample: after the only book with logs is deleted, the
    next recomputation takes the longest streak from 3 down to 0. *)
Lemma longestStreak_drops_after_deletion :
  longestStreak Scenario.s3 = 3
  /\ longestStreak
       (run [DeleteBook (Scenario.at_day 19725) true Scenario.dune_id;
             UpdateStreaks (Scenario.at_day 19725)] Scenario.s3) = 0
  /\ ~ (longestStreak Scenario.s3
        <= longestStreak
             (run [DeleteBook (Scenario.at_day 19725) true Scenario.dune_id;
                   UpdateStreaks (Scenario.at_day 19725)] Scenario.s3)).
Proof. vm_compute. repeat split. intros H. apply H. reflexivity. Qed.

(** C1, as amended: over every run of operations other than an import in
    which each recomputation of the streaks finds at least one log date in
    the store, the longest streak at the end is at least the one at the
    start; deletions in between are allowed. *)
Theorem longestStreak_ratchet (ops : list Op) (s : Store) :
  forallb (fun op => negb (is_import op)) ops = true ->
  dates_remain ops s = true ->
  longestStreak s <= longestStreak (run ops s).
Proof.
  revert s; induction ops as [|op ops IH]; intros s Hi Hd.
  - simpl. lia.
  - change (run (op :: ops) s) with (run ops (step op s)).
    cbn [forallb dates_remain] in Hi, Hd.
    apply andb_true_iff in Hi as [Hi1 Hi2].
    apply andb_true_iff in Hd as [Hd1 Hd2].
    apply negb_true_iff in Hi1.
    pose proof (step_longestStreak op s Hi1 Hd1).
    specialize (IH (step op s) Hi2 Hd2). lia.
Qed.

Lemma longestStreak_ratchet_witness :
  longestStreak Scenario.s3
  <= longestStreak (run Scenario.second_book_then_delete Scenario.s3).
Proof.
  apply (longestStreak_ratchet Scenario.second_book_then_delete Scenario.s3);
    reflexivity.
Defined.

(** A log that is turned down calls no recomputation, and the run is asked
    nothing for it: on the fresh store a book is added and 0 pages are
    submitted. *)
Example rejected_log_asks_nothing :
  dates_remain [AddBook (Scenario.at_day 19725) Scenario.dune_form;
                Scenario.log_on 1 0] Scenario.s0 = true
  /\ allDates (books (run [AddBook (Scenario.at_day 19725) Scenario.dune_form;
                           Scenario.log_on 1 0] Scenario.s0)) = [].
Proof. vm_compute. split; reflexivity. Qed.

(* ================================================================== *)
(** ** Achievement evaluator: unlocks are kept *)
(* ================================================================== *)

Lemma table_le_refl (l : list UserAchievement) : table_le l l.
Proof. induction l; constructor; [split; auto|assumption]. Qed.

Lemma table_le_trans (l1 l2 l3 : list UserAchievement) :
  table_le l1 l2 -> table_le l2 l3 -> table_le l1 l3.
Proof.
  intros H; revert l3; induction H as [|a b l1 l2 [Hi Hu] _ IH]; intros l3 H3;
    inversion H3 as [|b' c l2' l3' [Hi' Hu'] Hr]; subst; constructor.
  - split; [congruence|auto].
  - now apply IH.
Qed.

Lemma unlock_le (i : string) (l : list UserAchievement) : table_le l (unlock i l).
Proof.
  induction l as [|a l IH]; simpl; [constructor|].
  destruct (ach_id a =? i)%string; constructor;
    try apply table_le_refl; try assumption; split; auto.
Qed.

(** What is shown as unlocked stays so under [table_le]. *)
Lemma table_le_find (i : string) (l l' : list UserAchievement) :
  table_le l l' ->
  (match find_achievement i l with Some a => unlocked a | None => false end) = true ->
  (match find_achievement i l' with Some a => unlocked a | None => false end) = true.
Proof.
  unfold find_achievement.
  induction 1 as [|a a' l l' [Hi Hu] _ IH]; simpl; [discriminate|].
  rewrite Hi. destruct (ach_id a =? i)%string; auto.
Qed.

Lemma check_one_le (now : Clock) (acc : Store * bool) (a : AchievementDef) :
  table_le (achievements (fst acc)) (achievements (fst (check_one now acc a))).
Proof.
  destruct acc as [s u]. unfold check_one.
  destruct (find_achievement (def_id a) (achievements s)) as [ua|];
    [destruct (negb (unlocked ua) && check a s)|]; simpl;
    try apply table_le_refl.
  apply unlock_le.
Qed.

Lemma check_all_le (now : Clock) (l : list AchievementDef) (acc : Store * bool) :
  table_le (achievements (fst acc))
           (achievements (fst (fold_left (check_one now) l acc))).
Proof.
  revert acc; induction l as [|a l IH]; intros acc; simpl.
  - apply table_le_refl.
  - eapply table_le_trans; [apply check_one_le|apply IH].
Qed.

Lemma checkAchievements_le (now : Clock) (s0 s : Store) :
  achievements s = achievements s0 ->
  table_le (achievements s0) (achievements (checkAchievements now s)).
Proof.
  intros <-. unfold checkAchievements.
  pose proof (check_all_le now achievementsList (s, false)) as H.
  destruct (fold_left (check_one now) achievementsList (s, false)) as [s' u].
  simpl in H. destruct u; exact H.
Qed.

Lemma updateStreaks_achievements (now : Clock) (s : Store) :
  achievements (updateStreaks now s) = achievements s.
Proof. apply updateStreaks_frame. Qed.

Lemma step_achievements_le (op : Op) (s : Store) :
  replaces_achievements op = false ->
  table_le (achievements s) (achievements (step op s)).
Proof.
  intros Hr.
  destruct op as [now e|now e|bookId c|now bookId|now confirmed bookId|now e
                 |now|now|now|now parsed confirmed]; simpl.
  - unfold handleAddBook. destruct (_ || _ || _); [apply table_le_refl|].
    now apply checkAchievements_le.
  - unfold handleAddLog.
    destruct (find_book _ _) as [b|]; [|apply table_le_refl].
    destruct (_ <=? 0); [apply table_le_refl|].
    apply checkAchievements_le.
    cbn [achievements addActivity set_activityFeed saveActivityFeed setItem
         saveStreaks].
    now rewrite updateStreaks_achievements.
  - unfold changeBookCategory. destruct (find_book _ _); apply table_le_refl.
  - unfold toggleBookCompletion.
    destruct (find_book _ _) as [b|]; [|apply table_le_refl].
    apply checkAchievements_le. cbn [achievements saveStreaks setItem].
    rewrite updateStreaks_achievements.
    destruct (completed b); [reflexivity|].
    destruct (getRemainingAmount b >? 0); reflexivity.
  - unfold deleteBook. destruct confirmed; [|apply table_le_refl].
    destruct (find_book _ _); apply table_le_refl.
  - unfold handleEditBook. destruct (find_book _ _); apply table_le_refl.
  - rewrite updateStreaks_achievements. apply table_le_refl.
  - now apply checkAchievements_le.
  - apply table_le_refl.
  - unfold importData. destruct parsed as [data|]; [|apply table_le_refl].
    destruct confirmed; [|apply table_le_refl].
    simpl in Hr.
    destruct (doc_achievements data); [discriminate|].
    destruct (doc_books data), (doc_streaks data), (doc_activityFeed data),
      (doc_dailyGoal data) as [g|]; try destruct (g =? 0); apply table_le_refl.
Qed.

(** C8, the counterexample: importing a backup whose table has "first-book"
    locked re-locks it. *)
Lemma import_relocks_achievement :
  is_unlocked "first-book" Scenario.s1 = true
  /\ is_unlocked "first-book"
       (step (ImportData Scenario.later (Some Scenario.old_backup) true)
             Scenario.s1) = false.
Proof. vm_compute. split; reflexivity. Qed.

(** C8, as amended: over every run of operations that contains no confirmed
    import of a document carrying an achievements table, an achievement that
    is unlocked at the start is unlocked at the end.  Such an import replaces
    the table by the document's. *)
Theorem unlocked_is_kept (ops : list Op) (s : Store) (i : string) :
  forallb (fun op => negb (replaces_achievements op)) ops = true ->
  is_unlocked i s = true ->
  is_unlocked i (run ops s) = true.
Proof.
  revert s; induction ops as [|op ops IH]; intros s Hr Hu.
  - exact Hu.
  - change (run (op :: ops) s) with (run ops (step op s)).
    cbn [forallb] in Hr. apply andb_true_iff in Hr as [Hr1 Hr2].
    apply negb_true_iff in Hr1.
    apply IH; [exact Hr2|].
    unfold is_unlocked in *.
    eapply table_le_find; [apply step_achievements_le; exact Hr1|exact Hu].
Qed.

Lemma unlocked_is_kept_witness :
  is_unlocked "first-book"
    (run (Scenario.second_book_then_delete
            ++ [ImportData Scenario.later None true;
                DeleteBook Scenario.later true "1704535200000";
                CheckAchievements Scenario.later])
         Scenario.s3) = true.
Proof.
  apply (unlocked_is_kept
           (Scenario.second_book_then_delete
              ++ [ImportData Scenario.later None true;
                  DeleteBook Scenario.later true "1704535200000";
                  CheckAchievements Scenario.later])
           Scenario.s3 "first-book"); reflexivity.
Defined.

(* ================================================================== *)
(** ** Snapshot round trip *)
(* ================================================================== *)

Lemma book_of_json_to_json (b : Book) : book_of_json (book_to_json b) = b.
Proof.
  destruct b as [i n a t tot c cover l st cp].
  unfold book_of_json, book_to_json, newBook, set_logs, set_completed,
    set_status, or_default; simpl.
  f_equal.
  - destruct (String.eqb_spec cover ""); congruence.
  - now destruct cp.
Qed.

Lemma books_of_json_to_json (l : list Book) :
  map book_of_json (map book_to_json l) = l.
Proof.
  induction l as [|b l IH]; simpl; [reflexivity|].
  now rewrite book_of_json_to_json, IH.
Qed.

(** C9, the counterexample: the feed after export and import differs from the
    feed before. *)
Lemma round_trip_changes_activityFeed :
  List.length (activityFeed Scenario.s1) = 3%nat
  /\ List.length
       (activityFeed
          (export_then_import Scenario.later Scenario.later Scenario.s1)) = 4%nat
  /\ activityFeed (export_then_import Scenario.later Scenario.later Scenario.s1)
     <> activityFeed Scenario.s1.
Proof.
  split; [reflexivity|]. split; [reflexivity|].
  intros H. apply (f_equal (@List.length Activity)) in H.
  vm_compute in H. discriminate H.
Qed.

(** C9, as amended: exporting and at once importing the exported document
    gives back the same books (with logs, status and completed flag), the
    same current and longest streak, the same achievements and the same daily
    goal; the activity feed is the feed from before the export with the
    import event added in front, cut to the feed's bound like any other
    event. *)
Theorem export_import_round_trip (now1 now2 : Clock) (s : Store) :
  let s' := export_then_import now1 now2 s in
  books s' = books s
  /\ currentStreak s' = currentStreak s
  /\ longestStreak s' = longestStreak s
  /\ achievements s' = achievements s
  /\ dailyGoal s' = dailyGoal s
  /\ activityFeed s'
     = activityFeed
         (addActivity now2 "Импорт" "Данните са импортирани успешно" "" s).
Proof.
  unfold export_then_import, exportData, importData.
  cbn [doc_books doc_streaks doc_activityFeed doc_achievements doc_dailyGoal
       sd_currentStreak sd_longestStreak or_default].
  destruct (Z.eqb_spec (dailyGoal s) 0) as [Eg|Eg]; simpl;
    rewrite ?books_of_json_to_json; repeat split;
    try (now destruct (currentStreak s)); now destruct (longestStreak s).
Qed.

(* ================================================================== *)
(** ** Activity feed: the bound *)
(* ================================================================== *)

Lemma removelast_length {A : Type} (l : list A) :
  List.length (removelast l) = pred (List.length l).
Proof.
  induction l as [|x l IH]; [reflexivity|].
  destruct l as [|y l]; [reflexivity|].
  change (removelast (x :: y :: l)) with (x :: removelast (y :: l)).
  simpl List.length in *. now rewrite IH.
Qed.

(** X1: [addActivity] puts the new event first; a feed of fewer than 50
    entries grows by one, a feed of 50 or more keeps its length, the last
    entry making room. *)
Theorem addActivity_feed (now : Clock) (ty message bookName : string) (s : Store) :
  activityFeed (addActivity now ty message bookName s)
  = mkActivity ty message bookName (toISOString now)
      :: (if (List.length (activityFeed s) <? 50)%nat
          then activityFeed s else removelast (activityFeed s))
  /\ List.length (activityFeed (addActivity now ty message bookName s))
     = (if (List.length (activityFeed s) <? 50)%nat
        then S (List.length (activityFeed s))
        else List.length (activityFeed s)).
Proof.
  unfold addActivity. cbn [activityFeed set_activityFeed saveActivityFeed setItem].
  set (a := mkActivity ty message bookName (toISOString now)).
  set (feed := activityFeed s).
  assert (E : (50 <? List.length (a :: feed))%nat
              = negb (List.length feed <? 50)%nat).
  { simpl List.length.
    destruct (Nat.ltb_spec 50 (S (List.length feed)));
      destruct (Nat.ltb_spec (List.length feed) 50); simpl; try reflexivity; lia. }
  rewrite E.
  destruct (Nat.ltb_spec (List.length feed) 50) as [Hlt|Hge]; simpl negb; cbv iota.
  - split; reflexivity.
  - destruct feed as [|x feed']; [simpl in Hge; lia|].
    change (removelast (a :: x :: feed')) with (a :: removelast (x :: feed')).
    split; [reflexivity|].
    cbn [List.length]. rewrite removelast_length. reflexivity.
Qed.

Section FeedInvariant.
Variable Q : list Activity -> Prop.
Hypothesis Q_add :
  forall now ty message bookName s,
    Q (activityFeed s) -> Q (activityFeed (addActivity now ty message bookName s)).

Lemma check_one_feed (now : Clock) (acc : Store * bool) (a : AchievementDef) :
  Q (activityFeed (fst acc)) -> Q (activityFeed (fst (check_one now acc a))).
Proof.
  destruct acc as [s u]. unfold check_one. intros H.
  destruct (find_achievement (def_id a) (achievements s)) as [ua|];
    [destruct (negb (unlocked ua) && check a s)|]; try exact H.
  cbn [fst]. apply Q_add. exact H.
Qed.

Lemma check_all_feed (now : Clock) (l : list AchievementDef) (acc : Store * bool) :
  Q (activityFeed (fst acc)) ->
  Q (activityFeed (fst (fold_left (check_one now) l acc))).
Proof.
  revert acc; induction l as [|a l IH]; intros acc H; simpl; [exact H|].
  apply IH, check_one_feed, H.
Qed.

Lemma checkAchievements_feed (now : Clock) (s : Store) :
  Q (activityFeed s) -> Q (activityFeed (checkAchievements now s)).
Proof.
  intros H. unfold checkAchievements.
  pose proof (check_all_feed now achievementsList (s, false) H) as H'.
  destruct (fold_left (check_one now) achievementsList (s, false)) as [s' u].
  destruct u; exact H'.
Qed.

Lemma updateStreaks_activityFeed (now : Clock) (s : Store) :
  activityFeed (updateStreaks now s) = activityFeed s.
Proof. apply updateStreaks_frame. Qed.

Lemma step_feed (op : Op) (s : Store) :
  is_import op = false ->
  Q (activityFeed s) -> Q (activityFeed (step op s)).
Proof.
  intros Hi H.
  destruct op as [now e|now e|bookId c|now bookId|now confirmed bookId|now e
                 |now|now|now|now parsed confirmed];
    simpl in Hi; try discriminate Hi; simpl step.
  - unfold handleAddBook. destruct (_ || _ || _); [exact H|].
    apply checkAchievements_feed, Q_add. exact H.
  - unfold handleAddLog. destruct (find_book _ _) as [b|]; [|exact H].
    destruct (_ <=? 0); [exact H|].
    apply checkAchievements_feed, Q_add.
    cbn [activityFeed saveStreaks setItem].
    rewrite updateStreaks_activityFeed. exact H.
  - unfold changeBookCategory. destruct (find_book _ _); exact H.
  - unfold toggleBookCompletion. destruct (find_book _ _) as [b|]; [|exact H].
    apply checkAchievements_feed. cbn [activityFeed saveStreaks setItem].
    rewrite updateStreaks_activityFeed.
    cbn [activityFeed saveBooks setItem with_book set_books].
    destruct (completed b); [exact H|]. cbn [negb].
    destruct (getRemainingAmount b >? 0); apply Q_add; exact H.
  - unfold deleteBook. destruct confirmed; [|exact H].
    destruct (find_book _ _); [|exact H].
    cbn [snd activityFeed saveBooks setItem set_books]. apply Q_add. exact H.
  - unfold handleEditBook. destruct (find_book _ _); [|exact H].
    apply Q_add. exact H.
  - rewrite updateStreaks_activityFeed. exact H.
  - apply checkAchievements_feed. exact H.
  - unfold exportData. cbn [snd]. apply Q_add. exact H.
Qed.

Lemma run_feed (ops : list Op) (s : Store) :
  forallb (fun op => negb (is_import op)) ops = true ->
  Q (activityFeed s) -> Q (activityFeed (run ops s)).
Proof.
  revert s; induction ops as [|op ops IH]; intros s Hi H; [exact H|].
  change (run (op :: ops) s) with (run ops (step op s)).
  cbn [forallb] in Hi. apply andb_true_iff in Hi as [Hi1 Hi2].
  apply negb_true_iff in Hi1.
  apply IH; [exact Hi2|]. now apply step_feed.
Qed.
End FeedInvariant.

(** X2: over every run of operations without an import, a feed of at most
    50 entries stays at most 50 entries long. *)
Theorem activityFeed_bounded (ops : list Op) (s : Store) :
  forallb (fun op => negb (is_import op)) ops = true ->
  (List.length (activityFeed s) <= 50)%nat ->
  (List.length (activityFeed (run ops s)) <= 50)%nat.
Proof.
  apply (run_feed (fun feed => (List.length feed <= 50)%nat)).
  intros now ty message bookName s0 H.
  unfold addActivity.
  cbn [activityFeed set_activityFeed saveActivityFeed setItem].
  destruct (Nat.ltb_spec 50 (List.length
              (mkActivity ty message bookName (toISOString now)
                 :: activityFeed s0))) as [Hlt|Hge].
  - rewrite removelast_length. simpl List.length in *. lia.
  - exact Hge.
Qed.

Lemma activityFeed_bounded_witness :
  (List.length
     (activityFeed (run Scenario.second_book_then_delete Scenario.s3)) <= 50)%nat.
Proof.
  apply (activityFeed_bounded Scenario.second_book_then_delete Scenario.s3).
  - reflexivity.
  - vm_compute. lia.
Defined.

(* ================================================================== *)
(** ** Invariants of the book array *)
(* ================================================================== *)

Lemma mutate_book_compose (bookId : string) (f g : Book -> Book) (l : list Book) :
  (forall b, id (f b) = id b) ->
  mutate_book bookId g (mutate_book bookId f l)
  = mutate_book bookId (fun b => g (f b)) l.
Proof.
  intros Hid. induction l as [|x l IH]; simpl; [reflexivity|].
  destruct (String.eqb_spec (id x) bookId) as [E|E]; simpl.
  - rewrite Hid. now rewrite (proj2 (String.eqb_eq _ _) E).
  - rewrite (proj2 (String.eqb_neq _ _) E). now rewrite IH.
Qed.

Lemma mutate_book_Forall (P : Book -> Prop) (bookId : string)
    (f : Book -> Book) (l : list Book) (b : Book) :
  find_book bookId l = Some b ->
  Forall P l -> P (f b) -> Forall P (mutate_book bookId f l).
Proof.
  intros H Hl Hb.
  destruct (mutate_book_split bookId f l b H) as (pre & post & -> & -> & _).
  apply Forall_app in Hl as [Hpre Hpost]. apply Forall_app. split; [exact Hpre|].
  inversion Hpost; subst. now constructor.
Qed.

Lemma find_book_In (bookId : string) (l : list Book) (b : Book) :
  find_book bookId l = Some b -> In b l.
Proof. unfold find_book. intros H. now apply find_some in H. Qed.

Section BookInvariant.
Variable P : Book -> Prop.
Hypothesis P_new :
  forall i n a t tot c cover, P (newBook i (trim n) (trim a) t tot c (trim cover)).
Hypothesis P_log :
  forall b e, P b -> 0 < amount e -> P (updateStatus (push_log e b)).
Hypothesis P_category : forall b c, P b -> P (set_category b c).
Hypothesis P_flip :
  forall b, P b -> P (updateStatus (set_completed b (negb (completed b)))).
Hypothesis P_complete :
  forall b e, P b -> 0 < amount e -> completed b = false ->
              P (updateStatus (set_completed (push_log e b) true)).
Hypothesis P_edit :
  forall b n a t tot c cover,
    P b ->
    P (updateStatus (mkBook (id b) (trim n) (trim a) t tot c (trim cover)
                            (logs b) (status b) (completed b))).

Lemma step_books (op : Op) (s : Store) :
  is_import op = false ->
  Forall P (books s) -> Forall P (books (step op s)).
Proof.
  intros Hi H.
  destruct op as [now e|now e|bookId c|now bookId|now confirmed bookId|now e
                 |now|now|now|now parsed confirmed];
    simpl in Hi; try discriminate Hi; simpl step.
  - unfold handleAddBook. destruct (_ || _ || _); [exact H|].
    rewrite checkAchievements_books.
    cbn [books addActivity set_activityFeed saveActivityFeed setItem saveBooks
         set_books].
    apply Forall_app. split; [exact H|]. constructor; [apply P_new|constructor].
  - destruct (find_book (log_book_id e) (books s)) as [b|] eqn:F.
    + rewrite (handleAddLog_books now e s b F).
      destruct (Z.leb_spec (log_amount b e) 0); [exact H|].
      apply (mutate_book_Forall P _ _ _ b F H).
      apply P_log; [|assumption].
      rewrite Forall_forall in H. apply H, (find_book_In _ _ _ F).
    + unfold handleAddLog. rewrite F. exact H.
  - unfold changeBookCategory.
    destruct (find_book bookId (books s)) as [b|] eqn:F; [|exact H].
    cbn [books saveBooks setItem with_book set_books].
    apply (mutate_book_Forall P _ _ _ b F H), P_category.
    rewrite Forall_forall in H. apply H, (find_book_In _ _ _ F).
  - destruct (find_book bookId (books s)) as [b|] eqn:F.
    + rewrite (toggleBookCompletion_books now bookId s b F).
      assert (Pb : P b)
        by (rewrite Forall_forall in H; apply H, (find_book_In _ _ _ F)).
      destruct (completed b) eqn:Ec; cbn [negb andb].
      * apply (mutate_book_Forall P _ _ _ b F H). cbv beta. now apply P_flip.
      * destruct (Z.gtb_spec (getRemainingAmount b) 0) as [Hr|Hr].
        -- rewrite mutate_book_compose by reflexivity.
           apply (mutate_book_Forall P _ _ _ b F H). cbv beta.
           change (completed (push_log (mkLog (utcDay now) (getRemainingAmount b)) b))
             with (completed b).
           rewrite Ec. cbn [negb]. apply P_complete; [exact Pb| |exact Ec].
           simpl. lia.
        -- apply (mutate_book_Forall P _ _ _ b F H). cbv beta. now apply P_flip.
    + unfold toggleBookCompletion. rewrite F. exact H.
  - unfold deleteBook. destruct confirmed; [|exact H].
    destruct (find_book bookId (books s)); [|exact H].
    cbn [snd books saveBooks setItem set_books addActivity set_activityFeed
         saveActivityFeed].
    rewrite Forall_forall in *. intros x Hx. apply filter_In in Hx as [Hx _].
    now apply H.
  - unfold handleEditBook.
    destruct (find_book (edit_book_id e) (books s)) as [b|] eqn:F; [|exact H].
    cbn [books addActivity set_activityFeed saveActivityFeed setItem saveBooks
         with_book set_books].
    apply (mutate_book_Forall P _ _ _ b F H), P_edit.
    rewrite Forall_forall in H. apply H, (find_book_In _ _ _ F).
  - now rewrite updateStreaks_books.
  - now rewrite checkAchievements_books.
  - exact H.
Qed.

Lemma run_books (ops : list Op) (s : Store) :
  forallb (fun op => negb (is_import op)) ops = true ->
  Forall P (books s) -> Forall P (books (run ops s)).
Proof.
  revert s; induction ops as [|op ops IH]; intros s Hi H; [exact H|].
  change (run (op :: ops) s) with (run ops (step op s)).
  cbn [forallb] in Hi. apply andb_true_iff in Hi as [Hi1 Hi2].
  apply negb_true_iff in Hi1.
  apply IH; [exact Hi2|]. now apply step_books.
Qed.
End BookInvariant.

Lemma updateStatus_logs (b : Book) : logs (updateStatus b) = logs b.
Proof. apply updateStatus_fields. Qed.

Lemma updateStatus_idempotent (b : Book) :
  updateStatus (updateStatus b) = updateStatus b.
Proof.
  unfold updateStatus at 1. rewrite updateStatus_total_progress.
  replace (total (updateStatus b)) with (total b)
    by (symmetry; apply updateStatus_fields).
  unfold updateStatus.
  destruct (getTotalProgress b =? 0); [reflexivity|].
  destruct (getTotalProgress b >=? total b); reflexivity.
Qed.

(** X3: over every run of operations without an import, the stored status
    and completed flag of every book stay the ones [updateStatus] computes
    from its logs and total. *)
Theorem status_stays_current (ops : list Op) (s : Store) :
  forallb (fun op => negb (is_import op)) ops = true ->
  Forall status_current (books s) ->
  Forall status_current (books (run ops s)).
Proof.
  apply run_books; unfold status_current; intros;
    try apply updateStatus_idempotent.
  - reflexivity.
  - destruct b as [i n a t tot c0 cover l st cp].
    unfold updateStatus, getTotalProgress in *. simpl in *.
    destruct (fold_left _ l 0 =? 0);
      [|destruct (fold_left _ l 0 >=? tot)];
      unfold set_status, set_completed, set_category in *; simpl in *; congruence.
Qed.

Lemma status_stays_current_witness :
  Forall status_current
    (books (run Scenario.second_book_then_delete Scenario.s3)).
Proof.
  apply (status_stays_current Scenario.second_book_then_delete Scenario.s3).
  - reflexivity.
  - vm_compute. repeat constructor.
Defined.

(** X4: over every run of operations without an import, every log of every
    book keeps a positive amount, so the progress of a book is never
    negative. *)
Theorem amounts_stay_positive (ops : list Op) (s : Store) :
  forallb (fun op => negb (is_import op)) ops = true ->
  Forall (fun b => Forall (fun log => 0 < amount log) (logs b)) (books s) ->
  Forall (fun b => Forall (fun log => 0 < amount log) (logs b)
                   /\ 0 <= getTotalProgress b)
         (books (run ops s)).
Proof.
  intros Hi H.
  assert (G : Forall (fun b => Forall (fun log => 0 < amount log) (logs b))
                     (books (run ops s))).
  { revert Hi H. apply run_books.
    - intros. constructor.
    - intros b e Hb He.
      rewrite updateStatus_logs.
      eapply Permutation_Forall; [symmetry; apply push_log_perm|].
      now constructor.
    - intros b c Hb. exact Hb.
    - intros b Hb.
      rewrite updateStatus_logs. exact Hb.
    - intros b e Hb He _.
      rewrite updateStatus_logs.
      change (logs (set_completed (push_log e b) true)) with (logs (push_log e b)).
      eapply Permutation_Forall; [symmetry; apply push_log_perm|].
      now constructor.
    - intros b n a t tot c cover Hb.
      rewrite updateStatus_logs. exact Hb. }
  eapply Forall_impl; [|exact G]. intros b Hb. split; [exact Hb|].
  rewrite getTotalProgress_sum. now apply sum_amounts_nonneg.
Qed.

Lemma amounts_stay_positive_witness :
  Forall (fun b => Forall (fun log => 0 < amount log) (logs b)
                   /\ 0 <= getTotalProgress b)
         (books (run Scenario.second_book_then_delete Scenario.s3)).
Proof.
  apply (amounts_stay_positive Scenario.second_book_then_delete Scenario.s3).
  - reflexivity.
  - vm_compute. repeat constructor.
Defined.

(** X5: over every run of operations without an import, the logs of every
    book stay sorted by date, newest first. *)
Theorem logs_stay_newest_first (ops : list Op) (s : Store) :
  forallb (fun op => negb (is_import op)) ops = true ->
  Forall (fun b => newest_first (logs b)) (books s) ->
  Forall (fun b => newest_first (logs b)) (books (run ops s)).
Proof.
  apply run_books; unfold newest_first.
  - intros. simpl. constructor.
  - intros b e _ _.
    rewrite updateStatus_logs.
    apply push_log_sorted.
  - intros b c Hb. exact Hb.
  - intros b Hb.
    rewrite updateStatus_logs. exact Hb.
  - intros b e _ _ _.
    rewrite updateStatus_logs.
    change (logs (set_completed (push_log e b) true)) with (logs (push_log e b)).
    apply push_log_sorted.
  - intros b n a t tot c cover Hb.
    rewrite updateStatus_logs. exact Hb.
Qed.

Lemma logs_stay_newest_first_witness :
  Forall (fun b => newest_first (logs b))
         (books (run Scenario.second_book_then_delete Scenario.s3)).
Proof.
  apply (logs_stay_newest_first Scenario.second_book_then_delete Scenario.s3).
  - reflexivity.
  - vm_compute. repeat (constructor; try (intros H; discriminate H)).
Defined.

(* ================================================================== *)
(** ** Storage follows memory *)
(* ================================================================== *)

Lemma check_one_books_stored (now : Clock) (acc : Store * bool) (a : AchievementDef) :
  getItem_books (localStorage (fst (check_one now acc a)))
  = getItem_books (localStorage (fst acc)).
Proof.
  destruct acc as [s u]. unfold check_one.
  destruct (find_achievement (def_id a) (achievements s)) as [ua|];
    [destruct (negb (unlocked ua) && check a s)|]; reflexivity.
Qed.

Lemma check_all_books_stored (now : Clock) (l : list AchievementDef)
    (acc : Store * bool) :
  getItem_books (localStorage (fst (fold_left (check_one now) l acc)))
  = getItem_books (localStorage (fst acc)).
Proof.
  revert acc; induction l as [|a l IH]; intros acc; simpl; [reflexivity|].
  rewrite IH. apply check_one_books_stored.
Qed.

Lemma checkAchievements_books_stored (now : Clock) (s : Store) :
  getItem_books (localStorage (checkAchievements now s))
  = getItem_books (localStorage s).
Proof.
  unfold checkAchievements.
  pose proof (check_all_books_stored now achievementsList (s, false)) as H.
  destruct (fold_left (check_one now) achievementsList (s, false)) as [s' u].
  destruct u; exact H.
Qed.

Lemma updateStreaks_localStorage (now : Clock) (s : Store) :
  localStorage (updateStreaks now s) = localStorage s.
Proof. apply updateStreaks_frame. Qed.

Lemma books_in_sync_kept (s s' : Store) :
  books s' = books s ->
  getItem_books (localStorage s') = getItem_books (localStorage s) ->
  books_in_sync s -> books_in_sync s'.
Proof. unfold books_in_sync. now intros -> ->. Qed.

Lemma books_in_sync_saved (x s' : Store) :
  books s' = books x ->
  getItem_books (localStorage s') = getItem_books (localStorage (saveBooks x)) ->
  books_in_sync s'.
Proof. unfold books_in_sync. intros -> ->. reflexivity. Qed.

Lemma step_books_in_sync (op : Op) (s : Store) :
  books_in_sync s -> books_in_sync (step op s).
Proof.
  intros H.
  destruct op as [now e|now e|bookId c|now bookId|now confirmed bookId|now e
                 |now|now|now|now parsed confirmed]; simpl step.
  - unfold handleAddBook. destruct (_ || _ || _); [exact H|].
    eapply books_in_sync_saved;
      [rewrite checkAchievements_books|rewrite checkAchievements_books_stored];
      reflexivity.
  - unfold handleAddLog. destruct (find_book _ _) as [b|]; [|exact H].
    destruct (_ <=? 0); [exact H|].
    eapply books_in_sync_saved.
    + rewrite checkAchievements_books.
      cbn [books addActivity set_activityFeed saveActivityFeed setItem saveStreaks].
      rewrite updateStreaks_books. reflexivity.
    + rewrite checkAchievements_books_stored.
      cbn [localStorage addActivity set_activityFeed saveActivityFeed setItem
           saveStreaks getItem_books].
      rewrite updateStreaks_localStorage. reflexivity.
  - unfold changeBookCategory. destruct (find_book _ _); [|exact H].
    eapply books_in_sync_saved; reflexivity.
  - unfold toggleBookCompletion. destruct (find_book _ _) as [b|]; [|exact H].
    eapply books_in_sync_saved.
    + rewrite checkAchievements_books. cbn [books saveStreaks setItem].
      rewrite updateStreaks_books. reflexivity.
    + rewrite checkAchievements_books_stored.
      cbn [localStorage saveStreaks setItem getItem_books].
      rewrite updateStreaks_localStorage. reflexivity.
  - unfold deleteBook. destruct confirmed; [|exact H].
    destruct (find_book _ _); [|exact H].
    eapply books_in_sync_saved; reflexivity.
  - unfold handleEditBook. destruct (find_book _ _); [|exact H].
    eapply books_in_sync_saved; reflexivity.
  - eapply books_in_sync_kept; [| |exact H].
    + apply updateStreaks_books.
    + now rewrite updateStreaks_localStorage.
  - eapply books_in_sync_kept; [| |exact H].
    + apply checkAchievements_books.
    + apply checkAchievements_books_stored.
  - exact H.
  - unfold importData. destruct parsed as [data|]; [|exact H].
    destruct confirmed; [|exact H].
    destruct (doc_books data) as [l|].
    + eapply (books_in_sync_saved (set_books (map book_of_json l) s));
        destruct (doc_streaks data), (doc_activityFeed data),
          (doc_achievements data), (doc_dailyGoal data) as [g|];
        try destruct (g =? 0); reflexivity.
    + eapply books_in_sync_kept; [| |exact H];
        destruct (doc_streaks data), (doc_activityFeed data),
          (doc_achievements data), (doc_dailyGoal data) as [g|];
        try destruct (g =? 0); reflexivity.
Qed.

(** Whatever a procedure did before, [addActivity] leaves the feed saved. *)
Lemma addActivity_feed_in_sync (now : Clock) (ty message bookName : string)
    (s : Store) :
  feed_in_sync (addActivity now ty message bookName s).
Proof. reflexivity. Qed.

Lemma feed_in_sync_kept (s s' : Store) :
  activityFeed s' = activityFeed s ->
  getItem_activityFeed (localStorage s')
  = getItem_activityFeed (localStorage s) ->
  feed_in_sync s -> feed_in_sync s'.
Proof. unfold feed_in_sync. now intros -> ->. Qed.

Lemma check_one_feed_in_sync (now : Clock) (acc : Store * bool)
    (a : AchievementDef) :
  feed_in_sync (fst acc) -> feed_in_sync (fst (check_one now acc a)).
Proof.
  destruct acc as [s u]. unfold check_one.
  destruct (find_achievement (def_id a) (achievements s)) as [ua|];
    [destruct (negb (unlocked ua) && check a s)|]; auto.
  intros _. apply addActivity_feed_in_sync.
Qed.

Lemma checkAchievements_feed_in_sync (now : Clock) (s : Store) :
  feed_in_sync s -> feed_in_sync (checkAchievements now s).
Proof.
  intros H. unfold checkAchievements.
  assert (G : forall l acc, feed_in_sync (fst acc) ->
                            feed_in_sync (fst (fold_left (check_one now) l acc))).
  { induction l as [|a l IH]; intros acc Ha; simpl; [exact Ha|].
    apply IH, check_one_feed_in_sync, Ha. }
  specialize (G achievementsList (s, false) H).
  destruct (fold_left (check_one now) achievementsList (s, false)) as [s' u].
  destruct u; exact G.
Qed.

Lemma step_feed_in_sync (op : Op) (s : Store) :
  feed_in_sync s -> feed_in_sync (step op s).
Proof.
  intros H.
  destruct op as [now e|now e|bookId c|now bookId|now confirmed bookId|now e
                 |now|now|now|now parsed confirmed]; simpl step.
  - unfold handleAddBook. destruct (_ || _ || _); [exact H|].
    apply checkAchievements_feed_in_sync, addActivity_feed_in_sync.
  - unfold handleAddLog. destruct (find_book _ _) as [b|]; [|exact H].
    destruct (_ <=? 0); [exact H|].
    apply checkAchievements_feed_in_sync, addActivity_feed_in_sync.
  - unfold changeBookCategory. destruct (find_book _ _); exact H.
  - unfold toggleBookCompletion. destruct (find_book _ _) as [b|]; [|exact H].
    apply checkAchievements_feed_in_sync.
    unfold feed_in_sync.
    cbn [localStorage activityFeed saveStreaks setItem getItem_activityFeed].
    rewrite updateStreaks_localStorage, updateStreaks_activityFeed.
    destruct (completed b); [exact H|]. cbn [negb].
    destruct (getRemainingAmount b >? 0); reflexivity.
  - unfold deleteBook. destruct confirmed; [|exact H].
    destruct (find_book _ _); [|exact H]. reflexivity.
  - unfold handleEditBook. destruct (find_book _ _); [|exact H]. reflexivity.
  - eapply feed_in_sync_kept; [| |exact H].
    + apply updateStreaks_activityFeed.
    + now rewrite updateStreaks_localStorage.
  - now apply checkAchievements_feed_in_sync.
  - reflexivity.
  - unfold importData. destruct parsed as [data|]; [|exact H].
    destruct confirmed; [|exact H]. apply addActivity_feed_in_sync.
Qed.

(** X6: after every run of operations, imports included, the books last
    written to storage are the books in memory, and so is the activity
    feed. *)
Theorem storage_follows_memory (ops : list Op) (s : Store) :
  books_in_sync s -> feed_in_sync s ->
  books_in_sync (run ops s) /\ feed_in_sync (run ops s).
Proof.
  revert s; induction ops as [|op ops IH]; intros s Hb Hf; [now split|].
  change (run (op :: ops) s) with (run ops (step op s)).
  apply IH; [now apply step_books_in_sync|now apply step_feed_in_sync].
Qed.

Lemma storage_follows_memory_witness :
  books_in_sync
    (run (Scenario.second_book_then_delete
            ++ [ImportData Scenario.later (Some Scenario.old_backup) true])
         Scenario.s0)
  /\ feed_in_sync
       (run (Scenario.second_book_then_delete
               ++ [ImportData Scenario.later (Some Scenario.old_backup) true])
            Scenario.s0).
Proof.
  apply (storage_follows_memory
           (Scenario.second_book_then_delete
              ++ [ImportData Scenario.later (Some Scenario.old_backup) true])
           Scenario.s0); reflexivity.
Defined.

Lemma book_of_storage_to_json (b : Book) :
  book_of_storage (book_to_json b) = updateStatus b.
Proof.
  unfold book_of_storage. f_equal.
  destruct b as [i n a t tot c cover l st cp].
  unfold book_to_json, newBook, set_logs, set_completed, set_status, or_default;
    simpl.
  f_equal.
  - destruct (String.eqb_spec cover ""); congruence.
  - now destruct cp.
Qed.

Lemma startup_books (now : Clock) (trace : list SetItem) :
  books (startup now trace) = books (loadBooks (mkStore [] 0 0 [] [] 50 trace)).
Proof.
  unfold startup, initializeAchievements.
  rewrite checkAchievements_books. cbn [books set_achievements].
  rewrite updateStreaks_books.
  unfold loadAchievements, loadActivityFeed, loadStreaks.
  repeat match goal with
         | |- context [match ?x with Some _ => _ | None => _ end] =>
             destruct x; cbn [books set_achievements set_activityFeed
                              set_streaks localStorage]
         end; reflexivity.
Qed.

(** X7: a page reload brings back exactly the books that were in memory,
    whenever the books in storage are the ones in memory and every status is
    current: [loadBooks] reads the last saved array and [updateStatus] finds
    every status already set. *)
Theorem reload_restores_books (now : Clock) (s : Store) :
  books_in_sync s ->
  Forall status_current (books s) ->
  books (startup now (localStorage s)) = books s.
Proof.
  intros Hsync Hcur.
  rewrite startup_books. unfold loadBooks. cbn [localStorage].
  unfold books_in_sync in Hsync.
  destruct (getItem_books (localStorage s)) as [parsed|].
  - cbn [books set_books]. subst parsed. rewrite map_map.
    induction Hcur as [|b l Hb' _ IH]; [reflexivity|].
    cbn [map]. rewrite book_of_storage_to_json, Hb'. f_equal. exact IH.
  - cbn [books]. now rewrite Hsync.
Qed.

Lemma reload_restores_books_witness :
  books (startup (Scenario.at_day 19730)
           (localStorage (run Scenario.second_book_then_delete Scenario.s3)))
  = books (run Scenario.second_book_then_delete Scenario.s3).
Proof.
  apply (reload_restores_books (Scenario.at_day 19730)
           (run Scenario.second_book_then_delete Scenario.s3)).
  - vm_compute. reflexivity.
  - vm_compute. repeat constructor.
Defined.

(* ================================================================== *)
(** ** Streak calculator: what the two loops count *)
(* ================================================================== *)





Lemma current_loop_acc (shift today i : Z) (l : list Day) (acc : Z) :
  current_loop shift today i l acc = acc + current_loop shift today i l 0.
Proof.
  revert i acc; induction l as [|d l IH]; intros i acc; simpl; [lia|].
  destruct (d - shift =? today - i); [|lia].
  rewrite (IH (i + 1) (acc + 1)), (IH (i + 1) 1). lia.
Qed.

Lemma current_loop_bounds (shift today i : Z) (l : list Day) :
  0 <= current_loop shift today i l 0 <= Z.of_nat (List.length l).
Proof.
  revert i; induction l as [|d l IH]; intros i; simpl List.length; simpl current_loop.
  - lia.
  - destruct (d - shift =? today - i); [|lia].
    rewrite current_loop_acc. specialize (IH (i + 1)). lia.
Qed.







Lemma updateStreaks_nonempty (now : Clock) (s : Store) :
  allDates (books s) <> [] ->
  updateStreaks now s
  = set_streaks
      (current_loop (local_day_shift now) (localDay now) 0
         (array_sort (fun a b => b - a) (allDates (books s))) 0)
      (Z.max (Z.max (longestStreak s)
                (longest_loop
                   (array_sort (fun a b => b - a) (allDates (books s))) 1 1))
         (current_loop (local_day_shift now) (localDay now) 0
            (array_sort (fun a b => b - a) (allDates (books s))) 0))
      s.
Proof.
  intros H. unfold updateStreaks.
  destruct (allDates (books s)) as [|d l]; [contradiction|reflexivity].
Qed.

(** X8: after [updateStreaks] the current streak is between 0 and the
    longest streak, and at most the number of distinct log dates. *)
Theorem updateStreaks_current_bounds (now : Clock) (s : Store) :
  0 <= currentStreak (updateStreaks now s)
       <= longestStreak (updateStreaks now s)
  /\ currentStreak (updateStreaks now s)
     <= Z.of_nat (List.length (allDates (books s))).
Proof.
  destruct (allDates (books s)) as [|d l] eqn:E.
  - unfold updateStreaks. rewrite E. simpl. lia.
  - rewrite updateStreaks_nonempty by (rewrite E; discriminate).
    cbn [currentStreak longestStreak set_streaks].
    pose proof (current_loop_bounds (local_day_shift now) (localDay now) 0
                  (array_sort (fun a b => b - a) (allDates (books s)))) as Hb.
    rewrite array_sort_length, E in Hb. rewrite E. lia.
Qed.





(** West of Greenwich a log dated the day after today counts for today: in
    New York on 2 January the logs of 1, 2 and 3 January give a current
    streak of 3, and the log of 3 January alone gives 1. *)
Example west_of_greenwich_counts_tomorrow :
  localDay Scenario.new_york = 19724
  /\ currentStreak (updateStreaks Scenario.new_york Scenario.s3) = 3
  /\ currentStreak
       (updateStreaks Scenario.new_york
          (set_books [set_logs Scenario.dune_logged [mkLog 19725 10]]
             Scenario.s3)) = 1.
Proof. vm_compute. repeat split. Qed.

(** X11: recomputing the streaks twice in a row gives the store that
    recomputing once gives. *)
Theorem updateStreaks_idempotent (now : Clock) (s : Store) :
  updateStreaks now (updateStreaks now s) = updateStreaks now s.
Proof.
  destruct (allDates (books s)) as [|d l] eqn:E.
  - unfold updateStreaks at 1. rewrite updateStreaks_books, E.
    unfold updateStreaks. rewrite E. reflexivity.
  - assert (Hne : allDates (books s) <> []) by (rewrite E; discriminate).
    rewrite (updateStreaks_nonempty now (updateStreaks now s))
      by (now rewrite updateStreaks_books).
    rewrite updateStreaks_books.
    rewrite (updateStreaks_nonempty now s Hne).
    unfold set_streaks. cbn [books currentStreak longestStreak activityFeed
                             achievements dailyGoal localStorage].
    f_equal. lia.
Qed.



(* ================================================================== *)
(** ** Achievement evaluator: what one pass establishes *)
(* ================================================================== *)

(** The conditions of the catalogue read the books and the current streak
    only. *)
Lemma check_reads_books_and_streak (a : AchievementDef) (s s' : Store) :
  In a achievementsList ->
  books s' = books s -> currentStreak s' = currentStreak s ->
  check a s' = check a s.
Proof.
  intros Ha Hb Hc. unfold achievementsList in Ha. simpl in Ha.
  repeat (destruct Ha as [<-|Ha]; [simpl; now rewrite ?Hb, ?Hc|]).
  destruct Ha.
Qed.

Lemma find_unlock (i : string) (l : list UserAchievement) (ua : UserAchievement) :
  find_achievement i l = Some ua ->
  find_achievement i (unlock i l) = Some (mkUserAchievement (ach_id ua) true).
Proof.
  unfold find_achievement. induction l as [|x l IH]; simpl; [discriminate|].
  destruct (String.eqb_spec (ach_id x) i) as [E|E]; intros H.
  - injection H as <-. simpl. now rewrite (proj2 (String.eqb_eq _ _) E).
  - simpl. rewrite (proj2 (String.eqb_neq _ _) E). now apply IH.
Qed.

(** Under [table_le] an id is in the later table exactly when it is in the
    earlier one. *)
Lemma table_le_find_none (i : string) (l l' : list UserAchievement) :
  table_le l l' ->
  (find_achievement i l = None <-> find_achievement i l' = None).
Proof.
  unfold find_achievement.
  induction 1 as [|a a' l l' [Hi Hu] _ IH]; simpl; [tauto|].
  rewrite Hi. destruct (ach_id a =? i)%string; [split; discriminate|exact IH].
Qed.

Lemma check_all_unlocks (now : Clock) (l : list AchievementDef) :
  (forall a, In a l -> In a achievementsList) ->
  forall (acc : Store * bool) (a : AchievementDef),
    In a l ->
    check a (fst acc) = true ->
    find_achievement (def_id a) (achievements (fst acc)) <> None ->
    is_unlocked (def_id a) (fst (fold_left (check_one now) l acc)) = true.
Proof.
  induction l as [|a0 l IH]; intros Hsub acc a Ha Hc Hf; [destruct Ha|].
  simpl fold_left.
  pose proof (check_one_frame now acc a0) as (Eb & Ec & _).
  pose proof (check_one_le now acc a0) as Hle.
  destruct Ha as [->|Ha].
  - assert (H1 : is_unlocked (def_id a) (fst (check_one now acc a)) = true).
    { destruct acc as [s u]. unfold check_one, is_unlocked in *. simpl fst in *.
      destruct (find_achievement (def_id a) (achievements s)) as [ua|] eqn:F;
        [|contradiction].
      rewrite Hc. destruct (unlocked ua) eqn:U; simpl.
      - now rewrite F.
      - now rewrite (find_unlock _ _ _ F). }
    unfold is_unlocked in *.
    eapply table_le_find; [apply check_all_le|exact H1].
  - apply IH.
    + intros x Hx. apply Hsub. now right.
    + exact Ha.
    + rewrite <- Hc. apply check_reads_books_and_streak;
        [apply Hsub; now right|exact Eb|exact Ec].
    + intros Hn. apply Hf. now apply (table_le_find_none _ _ _ Hle).
Qed.

Lemma check_pass_unlocks (now : Clock) (s : Store) (a : AchievementDef) :
  In a achievementsList ->
  check a s = true ->
  find_achievement (def_id a) (achievements s) <> None ->
  is_unlocked (def_id a) (checkAchievements now s) = true.
Proof.
  intros Ha Hc Hf.
  pose proof (check_all_unlocks now achievementsList (fun x H => H)
                (s, false) a Ha Hc Hf) as H.
  unfold checkAchievements.
  destruct (fold_left (check_one now) achievementsList (s, false)) as [s' u].
  destruct u; exact H.
Qed.

(** X13: after [checkAchievements], every achievement of the catalogue that
    has an entry in the table and whose condition holds is unlocked, and the
    books and both streak counters are the ones from before. *)
Theorem checkAchievements_unlocks (now : Clock) (s : Store) (a : AchievementDef) :
  In a achievementsList ->
  check a s = true ->
  find_achievement (def_id a) (achievements s) <> None ->
  is_unlocked (def_id a) (checkAchievements now s) = true
  /\ books (checkAchievements now s) = books s
  /\ currentStreak (checkAchievements now s) = currentStreak s
  /\ longestStreak (checkAchievements now s) = longestStreak s.
Proof.
  intros Ha Hc Hf.
  destruct (checkAchievements_frame now s) as (Eb & Ec & El & _).
  split; [now apply check_pass_unlocks|]. now rewrite Eb, Ec, El.
Qed.

Lemma checkAchievements_unlocks_witness :
  is_unlocked "first-complete"
    (checkAchievements Scenario.later Scenario.shortened) = true
  /\ books (checkAchievements Scenario.later Scenario.shortened)
     = books Scenario.shortened
  /\ currentStreak (checkAchievements Scenario.later Scenario.shortened)
     = currentStreak Scenario.shortened
  /\ longestStreak (checkAchievements Scenario.later Scenario.shortened)
     = longestStreak Scenario.shortened.
Proof.
  apply (checkAchievements_unlocks Scenario.later Scenario.shortened
           (mkAchievementDef "first-complete" "Първо завършване"
              (fun s => existsb completed (books s)))).
  - simpl. right. right. left. reflexivity.
  - vm_compute. reflexivity.
  - vm_compute. discriminate.
Defined.

Lemma check_all_settled (now : Clock) (l : list AchievementDef) (s : Store)
    (u : bool) :
  (forall a, In a l ->
     match find_achievement (def_id a) (achievements s) with
     | Some ua => unlocked ua = true \/ check a s = false
     | None => True
     end) ->
  fold_left (check_one now) l (s, u) = (s, u).
Proof.
  induction l as [|a l IH]; intros H; [reflexivity|].
  change (fold_left (check_one now) (a :: l) (s, u))
    with (fold_left (check_one now) l (check_one now (s, u) a)).
  assert (E : check_one now (s, u) a = (s, u)).
  { unfold check_one. specialize (H a (or_introl eq_refl)).
    destruct (find_achievement (def_id a) (achievements s)) as [ua|];
      [|reflexivity].
    destruct H as [-> | ->]; [reflexivity|]. now rewrite andb_false_r. }
  rewrite E. apply IH. intros x Hx. apply H. now right.
Qed.

(** X14: a second [checkAchievements] right after the first changes nothing:
    no unlock, no activity event and no write. *)
Theorem checkAchievements_twice (now now' : Clock) (s : Store) :
  checkAchievements now' (checkAchievements now s) = checkAchievements now s.
Proof.
  set (s' := checkAchievements now s).
  assert (Hsettled : forall a, In a achievementsList ->
            match find_achievement (def_id a) (achievements s') with
            | Some ua => unlocked ua = true \/ check a s' = false
            | None => True
            end).
  { intros a Ha.
    destruct (find_achievement (def_id a) (achievements s')) as [ua|] eqn:F;
      [|exact I].
    destruct (check a s') eqn:C; [left|now right].
    assert (Cs : check a s = true).
    { rewrite <- C. symmetry. apply check_reads_books_and_streak;
        [exact Ha|apply checkAchievements_frame|apply checkAchievements_frame]. }
    assert (Fs : find_achievement (def_id a) (achievements s) <> None).
    { intros Hn.
      apply (table_le_find_none _ _ _ (checkAchievements_le now s s eq_refl)) in Hn.
      fold s' in Hn. congruence. }
    pose proof (check_pass_unlocks now s a Ha Cs Fs) as Hu.
    fold s' in Hu. unfold is_unlocked in Hu. now rewrite F in Hu. }
  unfold checkAchievements at 1.
  now rewrite (check_all_settled now' achievementsList s' false Hsettled).
Qed.

(* ================================================================== *)
(** ** Statistics: the totals *)
(* ================================================================== *)





(* ================================================================== *)
(** ** Autocomplete suggestions: proofs *)
(* ================================================================== *)

Lemma includes_In (l : list string) (v : string) :
  includes l v = true <-> In v l.
Proof.
  unfold includes. rewrite existsb_exists. split.
  - intros (x & Hx & E). apply String.eqb_eq in E. now subst.
  - intros H. exists v. split; [exact H|apply String.eqb_refl].
Qed.

Lemma includes_false (l : list string) (v : string) :
  includes l v = false <-> ~ In v l.
Proof.
  rewrite <- includes_In. destruct (includes l v); split; congruence.
Qed.

Lemma filter_out_appended (l : list string) (v : string) :
  ~ In v l ->
  filter (fun n => negb (n =? v)%string) (l ++ [v]) = l.
Proof.
  intros H. rewrite filter_app. simpl. rewrite String.eqb_refl. simpl.
  rewrite app_nil_r. induction l as [|x l IH]; [reflexivity|].
  simpl. destruct (String.eqb_spec x v) as [E|E].
  - exfalso. apply H. now left.
  - simpl. f_equal. apply IH. intros Hin. apply H. now right.
Qed.

(** X17: hiding a suggestion that was not hidden and showing it again gives
    back the hidden lists as they were; a kind other than "name" and "author"
    changes nothing. *)
Theorem hide_then_show (kind value : string) (h : HiddenSuggestions) :
  (kind = "name" -> ~ In value (names h)) ->
  (kind = "author" -> ~ In value (authors h)) ->
  showSuggestion kind value (hideSuggestion kind value h) = h.
Proof.
  intros Hn Ha. destruct h as [ns au]. unfold hideSuggestion, showSuggestion.
  simpl names in *. simpl authors in *.
  destruct (String.eqb_spec kind "name") as [E|E].
  - specialize (Hn E). apply includes_false in Hn as Hn'. rewrite Hn'. simpl.
    now rewrite filter_out_appended.
  - simpl. destruct (String.eqb_spec kind "author") as [E'|E']; [|reflexivity].
    specialize (Ha E'). apply includes_false in Ha as Ha'. rewrite Ha'. simpl.
    now rewrite filter_out_appended.
Qed.

Lemma hide_then_show_witness :
  showSuggestion "author" "Lem"
    (hideSuggestion "author" "Lem" (mkHiddenSuggestions ["Dune"] ["Herbert"]))
  = mkHiddenSuggestions ["Dune"] ["Herbert"].
Proof.
  apply (hide_then_show "author" "Lem" (mkHiddenSuggestions ["Dune"] ["Herbert"])).
  - intros H. discriminate H.
  - intros _ [H|[]]. discriminate H.
Defined.

(** X18: [hideSuggestion] never stores a value twice and leaves a name or an
    author hidden; [showSuggestion] leaves it not hidden. *)
Theorem hidden_lists_have_no_duplicates (kind value : string)
    (h : HiddenSuggestions) :
  NoDup (names h) -> NoDup (authors h) ->
  NoDup (names (hideSuggestion kind value h))
  /\ NoDup (authors (hideSuggestion kind value h))
  /\ (kind = "name" -> In value (names (hideSuggestion kind value h))
                       /\ ~ In value (names (showSuggestion kind value h)))
  /\ (kind = "author" -> In value (authors (hideSuggestion kind value h))
                         /\ ~ In value (authors (showSuggestion kind value h))).
Proof.
  intros Hn Ha. unfold hideSuggestion, showSuggestion.
  assert (Hadd : forall l, NoDup l -> ~ In value l -> NoDup (l ++ [value])).
  { intros l Hl Hv. apply NoDup_app; [exact Hl|repeat constructor; intros []|].
    intros x Hx [E|[]]. subst x. contradiction. }
  assert (Hrm : forall l, ~ In value
                            (filter (fun n => negb (n =? value)%string) l)).
  { intros l Hin. apply filter_In in Hin as [_ Hin].
    now rewrite String.eqb_refl in Hin. }
  destruct (String.eqb_spec kind "name") as [E|E].
  - subst kind. simpl.
    destruct (includes (names h) value) eqn:I; simpl.
    + apply includes_In in I. repeat split; auto; try discriminate.
    + apply includes_false in I. repeat split; auto; try discriminate.
      apply in_or_app. right. now left.
  - simpl. destruct (String.eqb_spec kind "author") as [E'|E'].
    + subst kind. simpl.
      destruct (includes (authors h) value) eqn:I; simpl.
      * apply includes_In in I. repeat split; auto; try discriminate.
      * apply includes_false in I. repeat split; auto; try discriminate.
        apply in_or_app. right. now left.
    + simpl. repeat split; auto; contradiction.
Qed.

Lemma hidden_lists_have_no_duplicates_witness :
  NoDup (names (hideSuggestion "name" "Dune" (mkHiddenSuggestions ["Dune"] [])))
  /\ NoDup (authors (hideSuggestion "name" "Dune" (mkHiddenSuggestions ["Dune"] [])))
  /\ ("name" = "name" ->
      In "Dune" (names (hideSuggestion "name" "Dune" (mkHiddenSuggestions ["Dune"] [])))
      /\ ~ In "Dune" (names (showSuggestion "name" "Dune" (mkHiddenSuggestions ["Dune"] []))))
  /\ ("name" = "author" ->
      In "Dune" (authors (hideSuggestion "name" "Dune" (mkHiddenSuggestions ["Dune"] [])))
      /\ ~ In "Dune" (authors (showSuggestion "name" "Dune" (mkHiddenSuggestions ["Dune"] [])))).
Proof.
  apply (hidden_lists_have_no_duplicates "name" "Dune"
           (mkHiddenSuggestions ["Dune"] [])); simpl; repeat constructor.
  intros [].
Defined.

Lemma suggest_key_fold (hidden keys out : list string) :
  NoDup out ->
  NoDup (fold_left (suggest_key hidden) keys out)
  /\ forall n, In n (fold_left (suggest_key hidden) keys out)
               <-> In n out \/ (In n keys /\ ~ In n hidden).
Proof.
  revert out; induction keys as [|k keys IH]; intros out Hnd; simpl.
  - split; [exact Hnd|]. intros n. tauto.
  - assert (Hstep : NoDup (suggest_key hidden out k)
                    /\ forall n, In n (suggest_key hidden out k)
                                 <-> In n out \/ (n = k /\ ~ In n hidden)).
    { unfold suggest_key.
      destruct (includes out k) eqn:Io; simpl.
      - apply includes_In in Io. split; [exact Hnd|].
        intros n. split; [tauto|]. intros [H|[-> _]]; assumption.
      - apply includes_false in Io.
        destruct (includes hidden k) eqn:Ih; simpl.
        + apply includes_In in Ih. split; [exact Hnd|].
          intros n. split; [tauto|]. intros [H|[-> H]]; [assumption|contradiction].
        + apply includes_false in Ih. split.
          * apply NoDup_app; [exact Hnd|repeat constructor; intros []|].
            intros x Hx [E|[]]. subst x. contradiction.
          * intros n. rewrite in_app_iff. simpl. split.
            -- intros [H|[<-|[]]]; auto.
            -- intros [H|[-> _]]; auto. } 
    destruct Hstep as [Hnd' Hin'].
    destruct (IH _ Hnd') as [Hnd'' Hin'']. split; [exact Hnd''|].
    intros n. rewrite Hin'', Hin'. split.
    + intros [[H|[-> H]]|[H1 H2]]; auto.
    + intros [H|[[<-|H1] H2]]; auto.
Qed.

Lemma suggest_book_lists (h : HiddenSuggestions) (acc : Suggestions) (b : Book) :
  seenNames acc = bookNames acc ->
  seenAuthors acc = authorNames acc ->
  bookNames (suggest_book h acc b) = suggest_key (names h) (bookNames acc) (name b)
  /\ authorNames (suggest_book h acc b)
     = suggest_key (authors h) (authorNames acc) (author b)
  /\ seenNames (suggest_book h acc b) = bookNames (suggest_book h acc b)
  /\ seenAuthors (suggest_book h acc b) = authorNames (suggest_book h acc b).
Proof.
  intros Hn Ha. unfold suggest_book, suggest_key. rewrite Hn.
  destruct (negb (includes (bookNames acc) (name b))
            && negb (includes (names h) (name b)));
    cbn [seenAuthors authorNames bookNames seenNames]; rewrite ?Ha, ?Hn;
    destruct (negb (includes (authorNames acc) (author b))
              && negb (includes (authors h) (author b)));
    cbn [seenAuthors authorNames bookNames seenNames]; rewrite ?Ha, ?Hn;
    repeat split; reflexivity.
Qed.

Lemma suggest_books_lists (h : HiddenSuggestions) (l : list Book) :
  forall acc,
    seenNames acc = bookNames acc ->
    seenAuthors acc = authorNames acc ->
    bookNames (fold_left (suggest_book h) l acc)
    = fold_left (suggest_key (names h)) (map name l) (bookNames acc)
    /\ authorNames (fold_left (suggest_book h) l acc)
       = fold_left (suggest_key (authors h)) (map author l) (authorNames acc).
Proof.
  induction l as [|b l IH]; intros acc Hn Ha; [split; reflexivity|].
  destruct (suggest_book_lists h acc b Hn Ha) as (En & Ea & Hn' & Ha').
  cbn [fold_left map]. rewrite <- En, <- Ea. now apply IH.
Qed.

(** X19: whatever number an id converts to, the names that
    [updateAutocomplete] offers are exactly the names of the books that are
    not hidden, each once; likewise the authors. *)
Theorem autocomplete_offers_unhidden_once (ToNumber : string -> option Z)
    (h : HiddenSuggestions) (l : list Book) :
  NoDup (fst (updateAutocomplete ToNumber h l))
  /\ NoDup (snd (updateAutocomplete ToNumber h l))
  /\ (forall n, In n (fst (updateAutocomplete ToNumber h l))
                <-> (exists b, In b l /\ name b = n) /\ ~ In n (names h))
  /\ (forall a, In a (snd (updateAutocomplete ToNumber h l))
                <-> (exists b, In b l /\ author b = a) /\ ~ In a (authors h)).
Proof.
  unfold updateAutocomplete. cbn [fst snd].
  set (sorted := array_sort (compare_recent ToNumber) l).
  destruct (suggest_books_lists h sorted (mkSuggestions [] [] [] [])
              eq_refl eq_refl) as [En Ea].
  rewrite En, Ea. cbn [bookNames authorNames].
  destruct (suggest_key_fold (names h) (map name sorted) [] (NoDup_nil _))
    as [Hn1 Hn2].
  destruct (suggest_key_fold (authors h) (map author sorted) [] (NoDup_nil _))
    as [Ha1 Ha2].
  assert (Hperm : forall b, In b sorted <-> In b l).
  { intros b. split; apply Permutation_in;
      [apply array_sort_perm|symmetry; apply array_sort_perm]. }
  split; [exact Hn1|]. split; [exact Ha1|]. split.
  - intros n. rewrite Hn2, in_map_iff. split.
    + intros [[]|[(b & E & Hb) Hh]]. split; [|exact Hh].
      exists b. split; [now apply Hperm|exact E].
    + intros [(b & Hb & E) Hh]. right. split; [|exact Hh].
      exists b. split; [exact E|now apply Hperm].
  - intros a. rewrite Ha2, in_map_iff. split.
    + intros [[]|[(b & E & Hb) Hh]]. split; [|exact Hh].
      exists b. split; [now apply Hperm|exact E].
    + intros [(b & Hb & E) Hh]. right. split; [|exact Hh].
      exists b. split; [exact E|now apply Hperm].
Qed.

(* ================================================================== *)
(** ** Editing a book *)
(* ================================================================== *)

Lemma trimStart_skip (s : string) :
  trimStart s = match skip_white_space s with
                | Some r => trimStart r
                | None => s
                end.
Proof.
  destruct s as [|c1 r1]; [reflexivity|].
  cbn [trimStart skip_white_space].
  destruct (isWhiteSpace c1); [reflexivity|].
  destruct r1 as [|c2 r2]; [reflexivity|].
  destruct (isWhiteSpace2 c1 c2); [reflexivity|].
  destruct r2 as [|c3 r3]; [reflexivity|].
  destruct (isWhiteSpace3 c1 c2 c3); reflexivity.
Qed.

Lemma skip_white_space_app (a r b : string) :
  skip_white_space a = Some r ->
  skip_white_space (a ++ b)%string = Some (r ++ b)%string.
Proof.
  destruct a as [|c1 [|c2 [|c3 r3]]]; simpl;
    repeat match goal with |- context [if ?b then _ else _] => destruct b end;
    intros E; inversion E; subst; reflexivity.
Qed.

Lemma skip_white_space_shorter (a r : string) :
  skip_white_space a = Some r -> (String.length r < String.length a)%nat.
Proof.
  destruct a as [|c1 [|c2 [|c3 r3]]]; simpl;
    repeat match goal with |- context [if ?b then _ else _] => destruct b end;
    intros E; inversion E; subst; simpl; lia.
Qed.

(** What [trimStart] returns starts with no white space. *)
Lemma trimStart_clean (s : string) : skip_white_space (trimStart s) = None.
Proof.
  remember (String.length s) as n eqn:En.
  revert s En. induction n as [n IH] using lt_wf_ind. intros s En.
  rewrite trimStart_skip. destruct (skip_white_space s) as [r|] eqn:E.
  - apply (IH (String.length r)); [|reflexivity].
    subst n. now apply skip_white_space_shorter.
  - exact E.
Qed.

Lemma trimStart_blank_app (a b : string) :
  trimStart a = EmptyString -> trimStart (a ++ b)%string = trimStart b.
Proof.
  remember (String.length a) as n eqn:En.
  revert a En. induction n as [n IH] using lt_wf_ind. intros a En Ha.
  rewrite trimStart_skip in Ha. destruct (skip_white_space a) as [r|] eqn:E.
  - rewrite (trimStart_skip (a ++ b)), (skip_white_space_app a r b E).
    apply (IH (String.length r)); [|reflexivity|exact Ha].
    subst n. now apply skip_white_space_shorter.
  - subst a. reflexivity.
Qed.

(** [trimEnd] cuts a blank tail off. *)
Lemma trimEnd_tail (s : string) :
  exists w, s = (trimEnd s ++ w)%string /\ is_blank w = true.
Proof.
  induction s as [|c r (w & Hw & Hb)].
  - exists EmptyString. split; reflexivity.
  - cbn [trimEnd]. destruct (is_blank (String c r)) eqn:B.
    + exists (String c r). split; [reflexivity|exact B].
    + exists w. split; [|exact Hb]. simpl. now rewrite <- Hw.
Qed.

Lemma is_blank_trimStart (s : string) :
  is_blank s = true <-> trimStart s = EmptyString.
Proof.
  unfold is_blank. destruct (trimStart s); split; congruence.
Qed.

Lemma is_blank_app (a b : string) :
  is_blank a = true -> is_blank b = true -> is_blank (a ++ b)%string = true.
Proof.
  rewrite !is_blank_trimStart. intros Ha Hb.
  now rewrite (trimStart_blank_app a b Ha).
Qed.

Lemma trimEnd_idempotent (s : string) : trimEnd (trimEnd s) = trimEnd s.
Proof.
  induction s as [|c r IH]; [reflexivity|].
  cbn [trimEnd]. destruct (is_blank (String c r)) eqn:B; [reflexivity|].
  cbn [trimEnd]. rewrite IH.
  destruct (is_blank (String c (trimEnd r))) eqn:B'; [|reflexivity].
  destruct (trimEnd_tail r) as (w & Hw & Hb).
  pose proof (is_blank_app _ _ B' Hb) as H.
  simpl in H. rewrite <- Hw in H. congruence.
Qed.

Lemma skip_white_space_prefix (a b : string) :
  skip_white_space (a ++ b)%string = None -> skip_white_space a = None.
Proof.
  intros H. destruct (skip_white_space a) as [r|] eqn:E; [|reflexivity].
  rewrite (skip_white_space_app a r b E) in H. discriminate.
Qed.

Lemma trimStart_after_trim (s : string) :
  trimStart (trimEnd (trimStart s)) = trimEnd (trimStart s).
Proof.
  destruct (trimEnd_tail (trimStart s)) as (w & Hw & _).
  pose proof (trimStart_clean s) as Hc. rewrite Hw in Hc.
  apply skip_white_space_prefix in Hc.
  rewrite trimStart_skip. now rewrite Hc.
Qed.

Lemma trim_idempotent (s : string) : trim (trim s) = trim s.
Proof.
  unfold trim. now rewrite trimStart_after_trim, trimEnd_idempotent.
Qed.

(** X20: over every run of operations without an import, the name, the
    author and the cover address of every book stay free of white space at
    both ends. *)
Theorem texts_stay_trimmed (ops : list Op) (s : Store) :
  forallb (fun op => negb (is_import op)) ops = true ->
  Forall (fun b => trim (name b) = name b /\ trim (author b) = author b
                   /\ trim (coverUrl b) = coverUrl b) (books s) ->
  Forall (fun b => trim (name b) = name b /\ trim (author b) = author b
                   /\ trim (coverUrl b) = coverUrl b) (books (run ops s)).
Proof.
  apply run_books.
  - intros. simpl. now rewrite !trim_idempotent.
  - intros b e Hb _.
    destruct (updateStatus_fields (push_log e b))
      as (_ & -> & -> & _ & _ & _ & -> & _). exact Hb.
  - intros b c Hb. exact Hb.
  - intros b Hb.
    destruct (updateStatus_fields (set_completed b (negb (completed b))))
      as (_ & -> & -> & _ & _ & _ & -> & _). exact Hb.
  - intros b e Hb _ _.
    destruct (updateStatus_fields (set_completed (push_log e b) true))
      as (_ & -> & -> & _ & _ & _ & -> & _). exact Hb.
  - intros b n a t tot c cover _.
    destruct (updateStatus_fields
                (mkBook (id b) (trim n) (trim a) t tot c (trim cover)
                        (logs b) (status b) (completed b)))
      as (_ & -> & -> & _ & _ & _ & -> & _).
    simpl. now rewrite !trim_idempotent.
Qed.

Lemma texts_stay_trimmed_witness :
  Forall (fun b => trim (name b) = name b /\ trim (author b) = author b
                   /\ trim (coverUrl b) = coverUrl b)
         (books (run Scenario.second_book_then_delete Scenario.s3)).
Proof.
  apply (texts_stay_trimmed Scenario.second_book_then_delete Scenario.s3).
  - reflexivity.
  - vm_compute. repeat constructor.
Defined.


(** X21: [handleEditBook] stores what the form holds without any check, a
    blank name or a total of 0 included; it keeps the id and the logs, sets
    the status from the new total, and never clears the completed flag. *)
Theorem handleEditBook_stores_form (now : Clock) (e : EditForm) (s : Store)
    (b : Book) :
  find_book (edit_book_id e) (books s) = Some b ->
  exists b',
    find_book (edit_book_id e) (books (handleEditBook now e s)) = Some b'
    /\ id b' = id b /\ logs b' = logs b
    /\ name b' = trim (edit_book_name e)
    /\ author b' = trim (edit_book_author e)
    /\ coverUrl b' = trim (edit_book_cover e)
    /\ type b' = edit_book_type e
    /\ category b' = edit_book_category e
    /\ total b'
       = form_total (edit_book_type e) (edit_total_pages e)
           (edit_total_hours e) (edit_total_minutes e)
    /\ status_current b'
    /\ (completed b = true -> completed b' = true).
Proof.
  intros F. unfold handleEditBook. rewrite F.
  cbn [books addActivity set_activityFeed saveActivityFeed setItem saveBooks
       with_book set_books].
  set (f := fun b0 : Book =>
              updateStatus
                (mkBook (id b0) (trim (edit_book_name e))
                   (trim (edit_book_author e)) (edit_book_type e)
                   (form_total (edit_book_type e) (edit_total_pages e)
                      (edit_total_hours e) (edit_total_minutes e))
                   (edit_book_category e) (trim (edit_book_cover e))
                   (logs b0) (status b0) (completed b0))).
  assert (Hid : id (f b) = id b)
    by (unfold f; exact (proj1 (updateStatus_fields _))).
  exists (f b). split; [now apply find_book_mutate|].
  unfold f.
  destruct (updateStatus_fields
              (mkBook (id b) (trim (edit_book_name e))
                 (trim (edit_book_author e)) (edit_book_type e)
                 (form_total (edit_book_type e) (edit_total_pages e)
                    (edit_total_hours e) (edit_total_minutes e))
                 (edit_book_category e) (trim (edit_book_cover e))
                 (logs b) (status b) (completed b)))
    as (-> & -> & -> & -> & -> & -> & -> & ->).
  repeat split; try reflexivity.
  - unfold status_current. apply updateStatus_idempotent.
  - intros Hc. unfold updateStatus.
    destruct (_ =? 0); [exact Hc|]. destruct (_ >=? _); [reflexivity|exact Hc].
Qed.

Lemma handleEditBook_stores_form_witness :
  exists b',
    find_book Scenario.dune_id
      (books (handleEditBook Scenario.later Scenario.blank_edit Scenario.s2))
    = Some b'
    /\ id b' = id Scenario.dune_done /\ logs b' = logs Scenario.dune_done
    /\ name b' = trim (edit_book_name Scenario.blank_edit)
    /\ author b' = trim (edit_book_author Scenario.blank_edit)
    /\ coverUrl b' = trim (edit_book_cover Scenario.blank_edit)
    /\ type b' = edit_book_type Scenario.blank_edit
    /\ category b' = edit_book_category Scenario.blank_edit
    /\ total b'
       = form_total (edit_book_type Scenario.blank_edit)
           (edit_total_pages Scenario.blank_edit)
           (edit_total_hours Scenario.blank_edit)
           (edit_total_minutes Scenario.blank_edit)
    /\ status_current b'
    /\ (completed Scenario.dune_done = true -> completed b' = true).
Proof.
  apply (handleEditBook_stores_form Scenario.later Scenario.blank_edit
           Scenario.s2 Scenario.dune_done).
  reflexivity.
Defined.



(* ================================================================== *)
(** ** Record store: what the handlers do on valid input *)
(* ================================================================== *)

(** X23: a valid add-book form appends exactly one book, planned and without
    logs, with the trimmed texts and the clock's milliseconds as id; the
    streaks stay, and "first-book" is unlocked when the table lists it. *)
Theorem handleAddBook_appends (now : Clock) (e : BookForm) (s : Store) :
  trim (book_name e) <> "" ->
  trim (book_author e) <> "" ->
  0 < form_total (book_type e) (total_pages e) (total_hours e) (total_minutes e) ->
  books (handleAddBook now e s)
  = books s
      ++ [mkBook (now_ms now) (trim (book_name e)) (trim (book_author e))
            (book_type e)
            (form_total (book_type e) (total_pages e) (total_hours e)
               (total_minutes e))
            (book_category e) (trim (book_cover e)) [] planned false]
  /\ currentStreak (handleAddBook now e s) = currentStreak s
  /\ longestStreak (handleAddBook now e s) = longestStreak s
  /\ (find_achievement "first-book" (achievements s) <> None ->
      is_unlocked "first-book" (handleAddBook now e s) = true).
Proof.
  intros Hn Ha Ht. unfold handleAddBook.
  rewrite (proj2 (String.eqb_neq _ _) Hn), (proj2 (String.eqb_neq _ _) Ha).
  replace (form_total (book_type e) (total_pages e) (total_hours e)
             (total_minutes e) <=? 0) with false
    by (symmetry; apply Z.leb_gt; exact Ht).
  cbn [orb]. cbv zeta.
  split; [rewrite checkAchievements_books; reflexivity|].
  split; [rewrite (proj1 (proj2 (checkAchievements_frame _ _))); reflexivity|].
  split; [rewrite checkAchievements_longestStreak; reflexivity|].
  intros Hf.
  apply (check_pass_unlocks now _
           (mkAchievementDef "first-book" "Първа книга"
              (fun s => (1 <=? List.length (books s))%nat))).
  - left. reflexivity.
  - cbn [check books addActivity set_activityFeed saveActivityFeed setItem
         saveBooks set_books].
    rewrite length_app. cbn [List.length].
    now replace (List.length (books s) + 1)%nat with (S (List.length (books s)))
      by lia.
  - exact Hf.
Qed.

Lemma handleAddBook_appends_witness :
  books (handleAddBook Scenario.later Scenario.second_form Scenario.s3)
  = books Scenario.s3
      ++ [mkBook (now_ms Scenario.later) (trim (book_name Scenario.second_form))
            (trim (book_author Scenario.second_form))
            (book_type Scenario.second_form)
            (form_total (book_type Scenario.second_form)
               (total_pages Scenario.second_form)
               (total_hours Scenario.second_form)
               (total_minutes Scenario.second_form))
            (book_category Scenario.second_form)
            (trim (book_cover Scenario.second_form)) [] planned false]
  /\ currentStreak (handleAddBook Scenario.later Scenario.second_form Scenario.s3)
     = currentStreak Scenario.s3
  /\ longestStreak (handleAddBook Scenario.later Scenario.second_form Scenario.s3)
     = longestStreak Scenario.s3
  /\ (find_achievement "first-book" (achievements Scenario.s3) <> None ->
      is_unlocked "first-book"
        (handleAddBook Scenario.later Scenario.second_form Scenario.s3) = true).
Proof.
  apply (handleAddBook_appends Scenario.later Scenario.second_form Scenario.s3).
  - vm_compute. discriminate.
  - vm_compute. discriminate.
  - vm_compute. reflexivity.
Defined.

(** X24: a confirmed deletion of a known id ends normally, removes every
    book with that id and keeps the others in order, records the deletion
    first in the feed, and leaves both streak counters as they were: the
    streaks are not recomputed. *)
Theorem deleteBook_removes (now : Clock) (bookId : string) (s : Store) (b : Book) :
  find_book bookId (books s) = Some b ->
  fst (deleteBook now true bookId s) = Normal
  /\ books (snd (deleteBook now true bookId s))
     = filter (fun b' => negb (id b' =? bookId)%string) (books s)
  /\ ~ In bookId (map id (books (snd (deleteBook now true bookId s))))
  /\ hd_error (activityFeed (snd (deleteBook now true bookId s)))
     = Some (mkActivity "Изтриване"
               ("Изтрита книга " ++ dquote ++ name b ++ dquote)%string
               (name b) (toISOString now))
  /\ currentStreak (snd (deleteBook now true bookId s)) = currentStreak s
  /\ longestStreak (snd (deleteBook now true bookId s)) = longestStreak s.
Proof.
  intros F. unfold deleteBook. rewrite F.
  cbn [fst snd books currentStreak longestStreak saveBooks setItem set_books
       addActivity set_activityFeed saveActivityFeed activityFeed].
  repeat split.
  - intros Hin. apply in_map_iff in Hin as (x & Hx & Hin).
    apply filter_In in Hin as [_ Hin]. subst bookId.
    now rewrite String.eqb_refl in Hin.
  - destruct (50 <? List.length (_ :: activityFeed s))%nat eqn:E; [|reflexivity].
    destruct (activityFeed s) as [|x feed]; [discriminate E|reflexivity].
Qed.

Lemma deleteBook_removes_witness :
  fst (deleteBook Scenario.later true Scenario.dune_id Scenario.s3) = Normal
  /\ books (snd (deleteBook Scenario.later true Scenario.dune_id Scenario.s3))
     = filter (fun b' => negb (id b' =? Scenario.dune_id)%string)
              (books Scenario.s3)
  /\ ~ In Scenario.dune_id
         (map id (books (snd (deleteBook Scenario.later true Scenario.dune_id
                                Scenario.s3))))
  /\ hd_error (activityFeed
                 (snd (deleteBook Scenario.later true Scenario.dune_id
                         Scenario.s3)))
     = Some (mkActivity "Изтриване"
               ("Изтрита книга " ++ dquote ++ name Scenario.dune_logged ++ dquote)%string
               (name Scenario.dune_logged) (toISOString Scenario.later))
  /\ currentStreak (snd (deleteBook Scenario.later true Scenario.dune_id
                           Scenario.s3)) = currentStreak Scenario.s3
  /\ longestStreak (snd (deleteBook Scenario.later true Scenario.dune_id
                           Scenario.s3)) = longestStreak Scenario.s3.
Proof.
  apply (deleteBook_removes Scenario.later Scenario.dune_id Scenario.s3
           Scenario.dune_logged).
  reflexivity.
Defined.





(** X27: [changeBookCategory] on a known id changes the category of the
    first book with that id and nothing else in the store, and writes the
    books once; it records no activity. *)
Theorem changeBookCategory_frame (bookId : string) (newCategory : Category)
    (s : Store) (b : Book) :
  find_book bookId (books s) = Some b ->
  exists pre post,
    books s = pre ++ b :: post
    /\ changeBookCategory bookId newCategory s
       = mkStore (pre ++ set_category b newCategory :: post)
           (currentStreak s) (longestStreak s) (activityFeed s)
           (achievements s) (dailyGoal s)
           (setItem_books (pre ++ set_category b newCategory :: post)
              :: localStorage s).
Proof.
  intros F. unfold changeBookCategory. rewrite F.
  destruct (mutate_book_split bookId (fun b0 => set_category b0 newCategory)
              (books s) b F) as (pre & post & E & Em & _).
  exists pre, post. split; [exact E|].
  unfold saveBooks, with_book, setItem, set_books.
  cbn [books currentStreak longestStreak activityFeed achievements dailyGoal
       localStorage].
  now rewrite Em.
Qed.

Lemma changeBookCategory_frame_witness :
  exists pre post,
    books Scenario.s3 = pre ++ Scenario.dune_logged :: post
    /\ changeBookCategory Scenario.dune_id choice Scenario.s3
       = mkStore (pre ++ set_category Scenario.dune_logged choice :: post)
           (currentStreak Scenario.s3) (longestStreak Scenario.s3)
           (activityFeed Scenario.s3) (achievements Scenario.s3)
           (dailyGoal Scenario.s3)
           (setItem_books (pre ++ set_category Scenario.dune_logged choice :: post)
              :: localStorage Scenario.s3).
Proof.
  apply (changeBookCategory_frame Scenario.dune_id choice Scenario.s3
           Scenario.dune_logged).
  reflexivity.
Defined.




